(** * Freelance dashboard: role-scoped queries and aggregations

    A shallow embedding of the request handlers of [main.py] (dashboard,
    time_logs, add_time_log, reports) over the tables of [app/models.py].

    Modelling choices, all visible in the definitions below:
    - a table is the list of its rows, in the order the database returns
      them; a query is a pipeline of [filter]s over a table or a join;
    - nullable integer columns are [option Z]; comparing a column with a
      Python value follows SQLAlchemy: [col == None] is [IS NULL], and
      [col == v] is never true of a NULL column;
    - [Float] columns are exact rationals ([Qc]): sums are the exact sums,
      binary rounding is outside the model;
    - a Python [dict] is an association list in insertion order;
    - a handler returns its response (or the exception it raises) together
      with the session's tables after the call. *)

From Stdlib Require Import ZArith QArith Qcanon Qround.
From Stdlib Require Import List String Ascii Bool Lia Lqa.
From Stdlib Require Import Sorting.Sorted Sorting.Permutation.
Import ListNotations.

Set Implicit Arguments.

Local Open Scope Z_scope.

(** ** Numbers *)

(** The [Float] column type, as exact rationals. *)
Abbreviation Float := Qc (only parsing).

Definition Qcleb (x y : Qc) : bool :=
  match (x ?= y)%Qc with Gt => false | _ => true end.

Definition Qcltb (x y : Qc) : bool :=
  match (x ?= y)%Qc with Lt => true | _ => false end.

Definition Qceqb (x y : Qc) : bool :=
  match (x ?= y)%Qc with Eq => true | _ => false end.

(** Python's [sum(xs)]: a left fold from the integer 0. *)
Definition py_sum (xs : list Float) : Float :=
  fold_left Qcplus xs (Q2Qc 0).

(** Python's [round(x, 1)] on an exact value: the nearest multiple of one
    tenth, a tie going to the even multiple. *)
Definition round1 (x : Float) : Float :=
  let t := (this x * inject_Z 10)%Q in
  let n := Qfloor t in
  let r := (t - inject_Z n)%Q in
  let k := match (r ?= 1 # 2)%Q with
           | Lt => n
           | Gt => n + 1
           | Eq => if Z.even n then n else n + 1
           end in
  Q2Qc (inject_Z k / inject_Z 10).

(** ** Dates *)

Module datetime.

Record date : Type := mkdate { year : Z; month : Z; day : Z }.


(** [a <= b], the order of calendar dates. *)
Definition date_leb (a b : date) : bool :=
  (year a <? year b)
  || ((year a =? year b)
      && ((month a <? month b)
          || ((month a =? month b) && (day a <=? day b)))).

(** [d.replace(day=n)] *)
Definition replace_day (d : date) (n : Z) : date :=
  {| year := year d; month := month d; day := n |}.

Definition is_leap (y : Z) : bool :=
  (y mod 4 =? 0) && (negb (y mod 100 =? 0) || (y mod 400 =? 0)).

Definition days_in_month (y m : Z) : Z :=
  if m =? 2 then (if is_leap y then 29 else 28)
  else if (m =? 4) || (m =? 6) || (m =? 9) || (m =? 11) then 30
  else 31.

(** The [date] constructor's range check. *)
Definition valid_date (y m d : Z) : bool :=
  (1 <=? y) && (y <=? 9999) && (1 <=? m) && (m <=? 12)
  && (1 <=? d) && (d <=? days_in_month y m).

(** *** [datetime.strptime(s, "%Y-%m-%d").date()]

    The library compiles the format to the regular expression
    [(\d\d\d\d)-(1[0-2]|0[1-9]|[1-9])-(3[0-1]|[1-2]\d|0[1-9]|[1-9]| [1-9])],
    matches it at the start of the string, refuses unconverted trailing
    data, and builds the date, which checks the calendar.  [None] stands
    for the [ValueError] raised in each of these cases.  Strings are ASCII. *)

Definition digit (c : ascii) : option Z :=
  let n := Z.of_N (N_of_ascii c) in
  if (48 <=? n) && (n <=? 57) then Some (n - 48) else None.

Definition parser (A : Type) : Type := list ascii -> option (A * list ascii).

Definition in_range (lo hi : Z) (d : Z) : bool := (lo <=? d) && (d <=? hi).

(** One digit of the class [lo-hi]. *)
Definition one (lo hi : Z) : parser Z :=
  fun s =>
    match s with
    | c :: rest =>
        match digit c with
        | Some d => if in_range lo hi d then Some (d, rest) else None
        | None => None
        end
    | [] => None
    end.

(** Two digits of the classes [lo1-hi1] and [lo2-hi2]. *)
Definition two (lo1 hi1 lo2 hi2 : Z) : parser Z :=
  fun s =>
    match one lo1 hi1 s with
    | Some (a, rest) =>
        match one lo2 hi2 rest with
        | Some (b, rest') => Some (10 * a + b, rest')
        | None => None
        end
    | None => None
    end.

(** A literal character. *)
Definition lit (c : ascii) : parser unit :=
  fun s =>
    match s with
    | c' :: rest => if Ascii.eqb c c' then Some (tt, rest) else None
    | [] => None
    end.

(** A space, then one digit of [lo-hi]. *)
Definition space_one (lo hi : Z) : parser Z :=
  fun s =>
    match lit " " s with
    | Some (_, rest) => one lo hi rest
    | None => None
    end.

(** Alternation followed by the rest of the pattern [k]: the first
    alternative after which the rest matches (backtracking). *)
Fixpoint alt_then (A B : Type) (alts : list (parser A))
         (k : A -> parser B) : parser B :=
  fun s =>
    match alts with
    | [] => None
    | p :: alts' =>
        match p s with
        | Some (a, rest) =>
            match k a rest with
            | Some r => Some r
            | None => alt_then alts' k s
            end
        | None => alt_then alts' k s
        end
    end.

Definition re_Y : parser Z :=
  fun s =>
    match two 0 9 0 9 s with
    | Some (hi, rest) =>
        match two 0 9 0 9 rest with
        | Some (lo, rest') => Some (100 * hi + lo, rest')
        | None => None
        end
    | None => None
    end.

Definition re_m : list (parser Z) :=
  [two 1 1 0 2; two 0 0 1 9; one 1 9].

Definition re_d : list (parser Z) :=
  [two 3 3 0 1; two 1 2 0 9; two 0 0 1 9; one 1 9; space_one 1 9].

Definition re_match : parser (Z * Z * Z) :=
  fun s =>
    match re_Y s with
    | Some (y, s1) =>
        match lit "-" s1 with
        | Some (_, s2) =>
            alt_then re_m
              (fun m s3 =>
                 match lit "-" s3 with
                 | Some (_, s4) =>
                     alt_then re_d (fun d s5 => Some (y, m, d, s5)) s4
                 | None => None
                 end) s2
        | None => None
        end
    | None => None
    end.

Definition strptime (date_string : string) : option date :=
  match re_match (list_ascii_of_string date_string) with
  | Some (y, m, d, []) =>
      if valid_date y m d then Some (mkdate y m d) else None
  | Some (_, _ :: _) => None
  | None => None
  end.

End datetime.

Import datetime.

(** ** Tables ([app/models.py]) *)

Module User.
Record t : Type := mk
  { id : Z;
    username : string;
    hashed_password : string;
    role : string;
    client_id : option Z }.
End User.

Module Client.
Record t : Type := mk
  { id : Z;
    name : string;
    email : string }.
End Client.

Module Project.
Record t : Type := mk
  { id : Z;
    name : string;
    status : string;
    deadline : date;
    budget : Float;
    client_id : option Z }.
End Project.

Module TimeEntry.
Record t : Type := mk
  { id : Z;
    project_id : option Z;
    date : datetime.date;
    hours : Float;
    description : string }.
End TimeEntry.

Module Invoice.
Record t : Type := mk
  { id : Z;
    project_id : option Z;
    amount : Float;
    issued_date : date;
    status : string }.
End Invoice.

(** The tables a session reads and writes. *)
Record Session : Type := mkSession
  { users : list User.t;
    clients : list Client.t;
    projects : list Project.t;
    time_entries : list TimeEntry.t;
    invoices : list Invoice.t }.

(** ** Query building blocks *)

(** [column == value] inside a filter, [value] being a Python integer or
    [None]: SQLAlchemy renders a comparison with [None] as [IS NULL]; a NULL
    column is equal to no integer. *)
Definition col_eq (column value : option Z) : bool :=
  match value, column with
  | None, None => true
  | None, Some _ => false
  | Some v, Some c => c =? v
  | Some _, None => false
  end.

(** The join condition [fk = projects.id]; a NULL key joins nothing. *)
Definition references (fk : option Z) (p : Project.t) : bool :=
  match fk with
  | Some k => k =? Project.id p
  | None => false
  end.

(** [db.query(X).join(models.Project)]: each row with the project it
    references (an inner join: rows referencing no project are dropped). *)
Definition join_project (A : Type) (fk : A -> option Z)
           (rows : list A) (ps : list Project.t) : list (A * Project.t) :=
  flat_map (fun r => map (fun p => (r, p)) (filter (references (fk r)) ps)) rows.

(** [user.role in ["admin", "freelancer"]] *)
Definition role_in (r : string) (rs : list string) : bool :=
  existsb (String.eqb r) rs.

(** The guard every view repeats:
    [if user.role == "client": q = q.filter(Project.client_id == user.client_id)]. *)
Definition client_filter (A : Type) (project_of : A -> Project.t)
           (user : User.t) (q : list A) : list A :=
  if String.eqb (User.role user) "client"
  then filter (fun r => col_eq (Project.client_id (project_of r))
                               (User.client_id user)) q
  else q.

(** ** Python dictionaries, in insertion order *)

Section PyDict.
Variables (K V : Type) (eqb : K -> K -> bool).

Definition dict : Type := list (K * V).

Fixpoint dict_get (d : dict) (k : K) : option V :=
  match d with
  | [] => None
  | (k', v) :: d' => if eqb k' k then Some v else dict_get d' k
  end.

(** [k in d] *)
Definition dict_contains (d : dict) (k : K) : bool :=
  match dict_get d k with Some _ => true | None => false end.

(** [d.get(k, default)] *)
Definition dict_get_default (d : dict) (k : K) (default : V) : V :=
  match dict_get d k with Some v => v | None => default end.

(** [d[k] = v]: an existing key keeps its place, a new key goes last. *)
Fixpoint dict_set (d : dict) (k : K) (v : V) : dict :=
  match d with
  | [] => [(k, v)]
  | (k', v') :: d' =>
      if eqb k' k then (k', v) :: d' else (k', v') :: dict_set d' k v
  end.

Definition dict_keys (d : dict) : list K := map fst d.
Definition dict_items (d : dict) : list (K * V) := d.
End PyDict.

(** ** Stable sorting, largest first *)

Section SortDesc.
Variables (A : Type) (geb : A -> A -> bool).

(** [geb x y] reads "the key of [x] is at least the key of [y]".  [x] came
    before every element of [l] in the input, so it goes before the first
    element it is not smaller than: equal keys keep their input order. *)
Fixpoint insert_desc (x : A) (l : list A) : list A :=
  match l with
  | [] => [x]
  | y :: l' => if geb x y then x :: y :: l' else y :: insert_desc x l'
  end.

Definition sort_desc (l : list A) : list A :=
  fold_right insert_desc [] l.
End SortDesc.

(** [sorted(xs, key=key, reverse=True)]: stable, by decreasing key. *)
Definition sorted_reverse (A : Type) (key : A -> Float) (xs : list A) : list A :=
  sort_desc (fun x y => Qcleb (key y) (key x)) xs.

(** [.order_by(models.TimeEntry.date.desc())] *)
Definition order_by_date_desc (A : Type) (date_of : A -> date) (q : list A) : list A :=
  sort_desc (fun x y => date_leb (date_of y) (date_of x)) q.

(** ** Responses *)

Inductive Response (C : Type) : Type :=
| RedirectResponse (url : string) (status_code : Z)
| TemplateResponse (name : string) (context : C).

Arguments RedirectResponse {C} url status_code.
Arguments TemplateResponse {C} name context.

Definition HTTP_303_SEE_OTHER : Z := 303.
Definition HTTP_307_TEMPORARY_REDIRECT : Z := 307.
Definition HTTP_403_FORBIDDEN : Z := 403.

(** [RedirectResponse(url=...)] with the default status code. *)
Definition redirect (C : Type) (url : string) : Response C :=
  RedirectResponse url HTTP_307_TEMPORARY_REDIRECT.

Local Open Scope string_scope.

(** * GET /dashboard *)

Record DashboardContext : Type := mkDashboardContext
  { dashboard_user : User.t;
    active_projects : nat;
    total_hours : Float;
    pending_invoices : nat;
    total_earned : Float }.

Section Dashboard.
Variables (db : Session) (user : User.t) (today : date).

Definition active_projects_query : list Project.t :=
  client_filter (fun p => p) user
    (filter (fun p => Project.status p =? "active") (projects db)).

Definition start_of_month : date := replace_day today 1.

Definition dashboard_time_query : list (TimeEntry.t * Project.t) :=
  client_filter snd user
    (join_project TimeEntry.project_id (time_entries db) (projects db)).

Definition month_hours : list (TimeEntry.t * Project.t) :=
  filter (fun r => date_leb start_of_month (TimeEntry.date (fst r)))
         dashboard_time_query.

Definition pending_inv_query : list (Invoice.t * Project.t) :=
  client_filter snd user
    (filter (fun r => role_in (Invoice.status (fst r)) ["draft"; "sent"])
            (join_project Invoice.project_id (invoices db) (projects db))).

Definition paid_inv_query : list (Invoice.t * Project.t) :=
  client_filter snd user
    (filter (fun r => Invoice.status (fst r) =? "paid")
            (join_project Invoice.project_id (invoices db) (projects db))).

Definition dashboard_context : DashboardContext :=
  {| dashboard_user := user;
     active_projects := List.length active_projects_query;
     total_hours :=
       round1 (py_sum (map (fun r => TimeEntry.hours (fst r)) month_hours));
     pending_invoices := List.length pending_inv_query;
     total_earned :=
       py_sum (map (fun r => Invoice.amount (fst r)) paid_inv_query) |}.
End Dashboard.

Definition dashboard (db : Session) (user : option User.t) (today : date)
  : Response DashboardContext :=
  match user with
  | None => redirect _ "/login"
  | Some u => TemplateResponse "dashboard.html" (dashboard_context db u today)
  end.

(** * GET /time-logs *)

Record TimeLogContext : Type := mkTimeLogContext
  { time_log_user : User.t;
    entries : list (TimeEntry.t * Project.t);
    projects_for_form : list Project.t;
    project_totals : dict Z Float }.

Section TimeLogs.
Variables (db : Session) (user : User.t).

(** The query: the join, ordered by date, filtered for a client (the
    database filters before it orders).  [.all()] on it gives the entries,
    each with its [entry.project]. *)
Definition time_logs_query : list (TimeEntry.t * Project.t) :=
  order_by_date_desc (fun r => TimeEntry.date (fst r))
    (client_filter snd user
       (join_project TimeEntry.project_id (time_entries db) (projects db))).

(** One turn of the loop over [all_visible_entries]. *)
Definition add_to_totals (totals : dict Z Float)
           (entry : TimeEntry.t * Project.t) : dict Z Float :=
  let pid := Project.id (snd entry) in
  let totals :=
    if dict_contains Z.eqb totals pid then totals
    else dict_set Z.eqb totals pid (Q2Qc 0) in
  dict_set Z.eqb totals pid
    (dict_get_default Z.eqb totals pid (Q2Qc 0) + TimeEntry.hours (fst entry))%Qc.

Definition time_logs_context : TimeLogContext :=
  {| time_log_user := user;
     entries := time_logs_query;
     projects_for_form :=
       if role_in (User.role user) ["admin"; "freelancer"]
       then filter (fun p => Project.status p =? "active") (projects db)
       else [];
     project_totals := fold_left add_to_totals time_logs_query [] |}.
End TimeLogs.

Definition time_logs (db : Session) (user : option User.t)
  : Response TimeLogContext :=
  match user with
  | None => redirect _ "/login"
  | Some u => TemplateResponse "time_log.html" (time_logs_context db u)
  end.

(** * POST /time-logs *)

(** What a handler call comes to: a response, or an exception that leaves
    the handler. *)
Inductive Exception : Type :=
| ValueError.

Inductive Outcome (C : Type) : Type :=
| Returned (response : Response C)
| Raised (e : Exception).

Arguments Returned {C} response.
Arguments Raised {C} e.

(** The primary key the database gives a row added without one: one more
    than the largest in the table. *)
Definition next_id (ids : list Z) : Z :=
  fold_left Z.max ids 0 + 1.

(** [db.add(new_entry); db.commit()] *)
Definition add_time_entry (db : Session) (new_entry : TimeEntry.t) : Session :=
  {| users := users db;
     clients := clients db;
     projects := projects db;
     time_entries := time_entries db ++ [new_entry];
     invoices := invoices db |}.

Definition add_time_log (db : Session) (user : option User.t)
           (project_id : Z) (hours : Float) (date : string)
           (description : string) : Outcome unit * Session :=
  match user with
  | None => (Returned (RedirectResponse "/time-logs" HTTP_403_FORBIDDEN), db)
  | Some u =>
      if User.role u =? "client"
      then (Returned (RedirectResponse "/time-logs" HTTP_403_FORBIDDEN), db)
      else
        match strptime date with
        | None => (Raised ValueError, db)
        | Some d =>
            let new_entry :=
              {| TimeEntry.id := next_id (map TimeEntry.id (time_entries db));
                 TimeEntry.project_id := Some project_id;
                 TimeEntry.hours := hours;
                 TimeEntry.date := d;
                 TimeEntry.description := description |} in
            (Returned (RedirectResponse "/time-logs" HTTP_303_SEE_OTHER),
             add_time_entry db new_entry)
        end
  end.

(** * GET /reports *)

Record ReportContext : Type := mkReportContext
  { report_user : User.t;
    hours_data : dict string Float;
    monthly_data : dict string Float;
    top_clients : list (string * Float) }.

Definition digit_char (n : Z) : ascii :=
  ascii_of_N (Z.to_N (48 + n mod 10)).

(** [d.strftime("%Y-%m")], for a year of four digits. *)
Definition strftime_Ym (d : date) : string :=
  string_of_list_ascii
    [digit_char (year d / 1000); digit_char (year d / 100);
     digit_char (year d / 10); digit_char (year d); "-"%char;
     digit_char (month d / 10); digit_char (month d)].

Section Reports.
Variables (db : Session) (user : User.t).

Definition reports_time_query : list (TimeEntry.t * Project.t) :=
  client_filter snd user
    (join_project TimeEntry.project_id (time_entries db) (projects db)).

Definition add_hours (hours_data : dict string Float)
           (entry : TimeEntry.t * Project.t) : dict string Float :=
  let pname := Project.name (snd entry) in
  dict_set String.eqb hours_data pname
    (dict_get_default String.eqb hours_data pname (Q2Qc 0)
     + TimeEntry.hours (fst entry))%Qc.

Definition inv_query : list (Invoice.t * Project.t) :=
  client_filter snd user
    (filter (fun r => Invoice.status (fst r) =? "paid")
            (join_project Invoice.project_id (invoices db) (projects db))).

Definition add_earnings (monthly_data : dict string Float)
           (inv : Invoice.t * Project.t) : dict string Float :=
  let month_key := strftime_Ym (Invoice.issued_date (fst inv)) in
  dict_set String.eqb monthly_data month_key
    (dict_get_default String.eqb monthly_data month_key (Q2Qc 0)
     + Invoice.amount (fst inv))%Qc.

(** The relationships [client.projects] and [p.invoices]. *)
Definition client_projects (client : Client.t) : list Project.t :=
  filter (fun p => col_eq (Project.client_id p) (Some (Client.id client)))
         (projects db).

Definition project_invoices (p : Project.t) : list Invoice.t :=
  filter (fun i => references (Invoice.project_id i) p) (invoices db).

(** [sum(i.amount for p in client.projects for i in p.invoices
         if i.status == "paid")] *)
Definition paid_total (client : Client.t) : Float :=
  py_sum
    (flat_map
       (fun p => map Invoice.amount
                     (filter (fun i => Invoice.status i =? "paid")
                             (project_invoices p)))
       (client_projects client)).

Definition add_client (top : dict string Float) (client : Client.t)
  : dict string Float :=
  let total := paid_total client in
  if Qcltb (Q2Qc 0) total
  then dict_set String.eqb top (Client.name client) total
  else top.

(** The dictionary [top_clients] when the loop is over. *)
Definition top_clients_dict : dict string Float :=
  if role_in (User.role user) ["admin"; "freelancer"]
  then fold_left add_client (clients db) []
  else [].

Definition reports_context : ReportContext :=
  {| report_user := user;
     hours_data := fold_left add_hours reports_time_query [];
     monthly_data := fold_left add_earnings inv_query [];
     top_clients :=
       sorted_reverse (fun x => snd x) (dict_items top_clients_dict) |}.
End Reports.

Definition reports (db : Session) (user : option User.t)
  : Response ReportContext :=
  match user with
  | None => redirect _ "/login"
  | Some u => TemplateResponse "reports.html" (reports_context db u)
  end.

(** * Sample data

    The clients, users, projects and invoices the start-up routine inserts,
    with a fixed day standing for [date.today()] and three fixed time
    entries in place of the twenty random ones. *)

Module Sample.

Definition today : date := mkdate 2024 6 15.

Definition techcorp := Client.mk 1 "TechCorp" "contact@techcorp.com".
Definition designstudio := Client.mk 2 "DesignStudio" "hello@designstudio.com".
Definition startupinc := Client.mk 3 "StartupInc" "founder@startupinc.com".

Definition admin := User.mk 1 "admin" "$2b$" "admin" None.
Definition freelancer := User.mk 2 "freelancer" "$2b$" "freelancer" None.
Definition client := User.mk 3 "client" "$2b$" "client" (Some 1).

Definition website :=
  Project.mk 1 "Website Redesign" "active" (mkdate 2024 7 15) (Q2Qc 5000) (Some 1).
Definition mobile :=
  Project.mk 2 "Mobile App MVP" "active" (mkdate 2024 8 14) (Q2Qc 12000) (Some 3).
Definition logo :=
  Project.mk 3 "Logo Design" "completed" (mkdate 2024 6 5) (Q2Qc 800) (Some 2).
Definition seo :=
  Project.mk 4 "SEO Audit" "on-hold" (mkdate 2024 6 20) (Q2Qc 1500) (Some 1).
Definition maintenance :=
  Project.mk 5 "Maintenance" "active" (mkdate 2025 6 15) (Q2Qc 2000) (Some 2).

Definition entry1 :=
  TimeEntry.mk 1 (Some 1) (mkdate 2024 6 3) (Q2Qc 3) "Frontend dev".
Definition entry2 :=
  TimeEntry.mk 2 (Some 2) (mkdate 2024 6 10) (Q2Qc (5 # 2)) "Meeting".
Definition entry3 :=
  TimeEntry.mk 3 (Some 1) (mkdate 2024 5 28) (Q2Qc 4) "Bug fixing".

Definition invoice1 := Invoice.mk 1 (Some 3) (Q2Qc 800) (mkdate 2024 6 3) "paid".
Definition invoice2 := Invoice.mk 2 (Some 1) (Q2Qc 2500) (mkdate 2024 6 10) "sent".
Definition invoice3 := Invoice.mk 3 (Some 2) (Q2Qc 4000) (mkdate 2024 6 15) "draft".
Definition invoice4 := Invoice.mk 4 (Some 4) (Q2Qc 1500) (mkdate 2024 5 26) "paid".

Definition db : Session :=
  {| users := [admin; freelancer; client];
     clients := [techcorp; designstudio; startupinc];
     projects := [website; mobile; logo; seo; maintenance];
     time_entries := [entry1; entry2; entry3];
     invoices := [invoice1; invoice2; invoice3; invoice4] |}.

(** A client-role user whose [client_id] is NULL, and a project whose
    [client_id] is NULL: both columns are nullable. *)
Definition unlinked := User.mk 4 "unlinked" "$2b$" "client" None.
Definition orphan :=
  Project.mk 6 "Internal" "active" (mkdate 2024 9 1) (Q2Qc 0) None.

Definition db_orphan : Session :=
  {| users := [admin; freelancer; client; unlinked];
     clients := clients db;
     projects := projects db ++ [orphan];
     time_entries := time_entries db;
     invoices := invoices db |}.

(** Two clients whose paid totals are equal, the later name first. *)
Definition zeta := Client.mk 1 "Zeta" "z@example.com".
Definition alpha := Client.mk 2 "Alpha" "a@example.com".

Definition db_tie : Session :=
  {| users := [admin];
     clients := [zeta; alpha];
     projects :=
       [Project.mk 1 "Site" "active" (mkdate 2024 7 1) (Q2Qc 100) (Some 1);
        Project.mk 2 "App" "active" (mkdate 2024 7 1) (Q2Qc 100) (Some 2)];
     time_entries := [];
     invoices :=
       [Invoice.mk 1 (Some 1) (Q2Qc 100) (mkdate 2024 6 1) "paid";
        Invoice.mk 2 (Some 2) (Q2Qc 100) (mkdate 2024 6 2) "paid"] |}.

End Sample.

(** The client of TechCorp has one active project and three hours this
    month; the admin sees three active projects and five and a half hours. *)
Example dashboard_client_sample :
  let d := dashboard_context Sample.db Sample.client Sample.today in
  (active_projects d, this (total_hours d),
   pending_invoices d, this (total_earned d))
  = (1%nat, 3%Q, 1%nat, 1500%Q).
Proof. reflexivity. Qed.

Example dashboard_admin_sample :
  let d := dashboard_context Sample.db Sample.admin Sample.today in
  (active_projects d, this (total_hours d),
   pending_invoices d, this (total_earned d))
  = (3%nat, (11 # 2)%Q, 2%nat, 2300%Q).
Proof. reflexivity. Qed.

Example time_logs_admin_sample :
  let v := time_logs_context Sample.db Sample.admin in
  (map (fun e => TimeEntry.id (fst e)) (entries v),
   map (fun kv => (fst kv, this (snd kv))) (project_totals v),
   map Project.id (projects_for_form v))
  = ([2; 1; 3], [(2, (5 # 2)%Q); (1, 7%Q)], [1; 2; 5]).
Proof. reflexivity. Qed.

Example reports_admin_sample :
  let r := reports_context Sample.db Sample.admin in
  (map (fun kv => (fst kv, this (snd kv))) (hours_data r),
   map (fun kv => (fst kv, this (snd kv))) (monthly_data r),
   map (fun kv => (fst kv, this (snd kv))) (top_clients r))
  = ([("Website Redesign", 7%Q); ("Mobile App MVP", (5 # 2)%Q)],
     [("2024-06", 800%Q); ("2024-05", 1500%Q)],
     [("TechCorp", 1500%Q); ("DesignStudio", 800%Q)]).
Proof. reflexivity. Qed.

(** Two projects of one name: their hours go under one key. *)
Example hours_data_merges_names :
  let db :=
    {| users := [Sample.admin];
       clients := [Sample.techcorp; Sample.designstudio];
       projects :=
         [Sample.maintenance;
          Project.mk 7 "Maintenance" "active" (mkdate 2024 12 1) (Q2Qc 900)
                     (Some 1)];
       time_entries :=
         [TimeEntry.mk 1 (Some 5) (mkdate 2024 6 3) (Q2Qc 2) "Patch";
          TimeEntry.mk 2 (Some 7) (mkdate 2024 6 4) (Q2Qc (3 # 2)) "Backup"];
       invoices := [] |} in
  map (fun kv => (fst kv, this (snd kv)))
      (hours_data (reports_context db Sample.admin))
  = [("Maintenance", (7 # 2)%Q)].
Proof. reflexivity. Qed.

Example strptime_samples :
  map strptime ["2024-01-15"; "2024-1-5"; "2024-02-30"; "2024-13-01";
                "2024-01-15 "; "24-01-15"; "0000-01-01"]
  = [Some (mkdate 2024 1 15); Some (mkdate 2024 1 5); None; None; None;
     None; None].
Proof. reflexivity. Qed.

(** * Facts about the building blocks *)

(** ** Comparisons *)

Lemma Qcleb_le (x y : Qc) : Qcleb x y = true <-> (x <= y)%Qc.
Proof.
  unfold Qcleb. rewrite Qcle_alt.
  destruct (x ?= y)%Qc; split; intro H; try reflexivity; try discriminate.
  exfalso. apply H. reflexivity.
Qed.

Lemma Qcltb_lt (x y : Qc) : Qcltb x y = true <-> (x < y)%Qc.
Proof.
  unfold Qcltb. rewrite Qclt_alt.
  destruct (x ?= y)%Qc; split; intro H; try reflexivity; discriminate.
Qed.

Lemma Qceqb_eq (x y : Qc) : Qceqb x y = true <-> x = y.
Proof.
  unfold Qceqb. rewrite Qceq_alt.
  destruct (x ?= y)%Qc; split; intro H; try reflexivity; discriminate.
Qed.

Lemma Qcleb_total (x y : Qc) : Qcleb x y = true \/ Qcleb y x = true.
Proof.
  rewrite !Qcleb_le. destruct (Qclt_le_dec x y) as [H | H].
  - left. apply Qclt_le_weak, H.
  - right. exact H.
Qed.

Lemma Qcleb_trans (x y z : Qc) :
  Qcleb x y = true -> Qcleb y z = true -> Qcleb x z = true.
Proof. rewrite !Qcleb_le. apply Qcle_trans. Qed.

Lemma col_eq_Some (column : option Z) (v : Z) :
  col_eq column (Some v) = true <-> column = Some v.
Proof.
  destruct column as [c |]; simpl.
  - rewrite Z.eqb_eq. split; intro H; [subst; reflexivity | now inversion H].
  - split; discriminate.
Qed.

Lemma col_eq_None (column : option Z) :
  col_eq column None = true <-> column = None.
Proof. destruct column; simpl; split; (reflexivity || discriminate). Qed.

(** ** Sums *)

Lemma fold_left_Qcplus (xs : list Float) (a : Float) :
  fold_left Qcplus xs a = (a + py_sum xs)%Qc.
Proof.
  unfold py_sum. revert a.
  induction xs as [| x xs IH]; intro a; simpl.
  - ring.
  - rewrite IH, (IH (Q2Qc 0 + x)%Qc). ring.
Qed.

Lemma py_sum_nil : py_sum [] = Q2Qc 0.
Proof. reflexivity. Qed.

Lemma py_sum_cons (x : Float) (xs : list Float) :
  py_sum (x :: xs) = (x + py_sum xs)%Qc.
Proof.
  unfold py_sum at 1. simpl. rewrite fold_left_Qcplus. ring.
Qed.

Lemma round1_zero : round1 (Q2Qc 0) = Q2Qc 0.
Proof. apply Qc_is_canon. reflexivity. Qed.

(** ** Dictionaries *)

Section PyDictFacts.
Variables (K V : Type) (eqb : K -> K -> bool).
Hypothesis eqb_eq : forall a b, eqb a b = true <-> a = b.

Lemma eqb_refl (a : K) : eqb a a = true.
Proof. apply eqb_eq. reflexivity. Qed.

Lemma eqb_neq (a b : K) : eqb a b = false <-> a <> b.
Proof.
  split.
  - intros H E. apply eqb_eq in E. congruence.
  - intro H. destruct (eqb a b) eqn:E; [| reflexivity].
    apply eqb_eq in E. contradiction.
Qed.

Lemma dict_get_None (d : dict K V) (k : K) :
  dict_get eqb d k = None <-> ~ In k (dict_keys d).
Proof.
  induction d as [| [k' v'] d IH]; simpl.
  - tauto.
  - destruct (eqb k' k) eqn:E.
    + apply eqb_eq in E. split; [discriminate | intro H; exfalso; auto].
    + apply eqb_neq in E. rewrite IH. tauto.
Qed.

Lemma dict_contains_In (d : dict K V) (k : K) :
  dict_contains eqb d k = true <-> In k (dict_keys d).
Proof.
  unfold dict_contains.
  destruct (dict_get eqb d k) eqn:E.
  - split; [intros _ | reflexivity].
    destruct (in_dec (fun a b => match eqb a b as r
                                 return eqb a b = r -> {a = b} + {a <> b}
                                 with
                                 | true => fun H => left (proj1 (eqb_eq a b) H)
                                 | false => fun H => right (proj1 (eqb_neq a b) H)
                                 end eq_refl)
                     k (dict_keys d)) as [H | H]; [exact H |].
    apply dict_get_None in H. congruence.
  - apply dict_get_None in E. split; [discriminate | contradiction].
Qed.

Lemma dict_get_set (d : dict K V) (k k' : K) (v : V) :
  dict_get eqb (dict_set eqb d k v) k'
  = if eqb k k' then Some v else dict_get eqb d k'.
Proof.
  induction d as [| [k0 v0] d IH]; simpl.
  - reflexivity.
  - destruct (eqb k0 k) eqn:E0; simpl.
    + apply eqb_eq in E0. subst k0.
      destruct (eqb k k'); reflexivity.
    + destruct (eqb k0 k') eqn:E1.
      * apply eqb_eq in E1. subst k0.
        destruct (eqb k k') eqn:E2; [| reflexivity].
        apply eqb_eq in E2. subst k'. rewrite eqb_refl in E0. discriminate.
      * exact IH.
Qed.

(** Setting a key keeps the keys, or adds the new one at the end. *)
Lemma dict_keys_set (d : dict K V) (k : K) (v : V) :
  dict_keys (dict_set eqb d k v)
  = if dict_contains eqb d k then dict_keys d else (dict_keys d ++ [k])%list.
Proof.
  unfold dict_contains.
  induction d as [| [k0 v0] d IH]; simpl.
  - reflexivity.
  - destruct (eqb k0 k) eqn:E0; simpl.
    + reflexivity.
    + rewrite IH. destruct (dict_get eqb d k); reflexivity.
Qed.

Lemma dict_set_new (d : dict K V) (k : K) (v : V) :
  ~ In k (dict_keys d) -> dict_set eqb d k v = (d ++ [(k, v)])%list.
Proof.
  induction d as [| [k0 v0] d IH]; simpl; intro H.
  - reflexivity.
  - destruct (eqb k0 k) eqn:E0.
    + apply eqb_eq in E0. exfalso. auto.
    + rewrite IH; [reflexivity | tauto].
Qed.

Lemma In_dict_keys_set (d : dict K V) (k k' : K) (v : V) :
  In k' (dict_keys (dict_set eqb d k v)) <-> k' = k \/ In k' (dict_keys d).
Proof.
  rewrite dict_keys_set.
  destruct (dict_contains eqb d k) eqn:E.
  - apply dict_contains_In in E. split; [tauto |].
    intros [-> | H]; assumption.
  - rewrite in_app_iff. simpl. split; intros [H | H]; auto.
    destruct H as [H | []]. auto.
Qed.

Lemma NoDup_dict_keys_set (d : dict K V) (k : K) (v : V) :
  NoDup (dict_keys d) -> NoDup (dict_keys (dict_set eqb d k v)).
Proof.
  intro H. rewrite dict_keys_set.
  destruct (dict_contains eqb d k) eqn:E; [exact H |].
  assert (Hk : ~ In k (dict_keys d)).
  { intro Hin. apply dict_contains_In in Hin. congruence. }
  clear E. induction (dict_keys d) as [| a l IH]; simpl.
  - constructor; [intros [] | constructor].
  - inversion H; subst. constructor.
    + rewrite in_app_iff. simpl. intros [Ha | [Ha | []]]; [auto |].
      subst. apply Hk. left. reflexivity.
    + apply IH; [assumption |]. intro Hin. apply Hk. right. exact Hin.
Qed.
End PyDictFacts.

(** ** Sorting *)

Section SortDescFacts.
Variables (A : Type) (geb : A -> A -> bool).

Lemma insert_desc_perm (x : A) (l : list A) :
  Permutation (x :: l) (insert_desc geb x l).
Proof.
  induction l as [| y l IH]; simpl.
  - apply Permutation_refl.
  - destruct (geb x y).
    + apply Permutation_refl.
    + eapply perm_trans; [apply perm_swap |].
      apply perm_skip, IH.
Qed.

Lemma sort_desc_perm (l : list A) : Permutation l (sort_desc geb l).
Proof.
  induction l as [| x l IH]; simpl.
  - constructor.
  - eapply perm_trans; [apply perm_skip, IH | apply insert_desc_perm].
Qed.

Lemma In_sort_desc (x : A) (l : list A) : In x (sort_desc geb l) <-> In x l.
Proof.
  split; apply Permutation_in;
    [apply Permutation_sym |]; apply sort_desc_perm.
Qed.

(** Elements of one class, any two of which compare as equal, come out in
    the order they went in. *)
Section Stable.
Variable cls : A -> bool.
Hypothesis cls_tied :
  forall x y, cls x = true -> cls y = true -> geb x y = true.

Lemma insert_desc_stable (x : A) (l : list A) :
  filter cls (insert_desc geb x l) = filter cls (x :: l).
Proof.
  induction l as [| y l IH].
  - reflexivity.
  - cbn [insert_desc]. destruct (geb x y) eqn:E; [reflexivity |].
    cbn [filter] in *. rewrite IH.
    destruct (cls x) eqn:Ex, (cls y) eqn:Ey; try reflexivity.
    rewrite (cls_tied Ex Ey) in E. discriminate.
Qed.

Lemma sort_desc_stable (l : list A) :
  filter cls (sort_desc geb l) = filter cls l.
Proof.
  induction l as [| x l IH]; [reflexivity |].
  cbn [sort_desc fold_right]. rewrite insert_desc_stable.
  cbn [filter]. fold (sort_desc geb l). rewrite IH. reflexivity.
Qed.
End Stable.

Hypothesis geb_total : forall x y, geb x y = true \/ geb y x = true.
Hypothesis geb_trans :
  forall x y z, geb x y = true -> geb y z = true -> geb x z = true.

Lemma insert_desc_sorted (x : A) (l : list A) :
  StronglySorted (fun a b => geb a b = true) l ->
  StronglySorted (fun a b => geb a b = true) (insert_desc geb x l).
Proof.
  induction 1 as [| y l Hl IH Hy]; simpl.
  - constructor; constructor.
  - destruct (geb x y) eqn:E.
    + constructor; [constructor; assumption |].
      constructor; [exact E |].
      rewrite Forall_forall in *. intros z Hz. eauto.
    + constructor; [exact IH |].
      rewrite Forall_forall in *. intros z Hz.
      apply (Permutation_in _ (Permutation_sym (insert_desc_perm x l))) in Hz.
      destruct Hz as [<- | Hz]; [| auto].
      destruct (geb_total x y) as [H | H]; congruence.
Qed.

Lemma sort_desc_sorted (l : list A) :
  StronglySorted (fun a b => geb a b = true) (sort_desc geb l).
Proof.
  induction l as [| x l IH]; simpl.
  - constructor.
  - apply insert_desc_sorted, IH.
Qed.
End SortDescFacts.

(** ** Queries *)

(** The scope the guard of [client_filter] gives a user: everything, or for
    a client the projects carrying the user's [client_id]. *)
Definition visible (user : User.t) (p : Project.t) : bool :=
  if User.role user =? "client"
  then col_eq (Project.client_id p) (User.client_id user)
  else true.

Lemma client_filter_visible (A : Type) (project_of : A -> Project.t)
      (user : User.t) (q : list A) :
  client_filter project_of user q
  = filter (fun r => visible user (project_of r)) q.
Proof.
  unfold client_filter, visible.
  destruct (User.role user =? "client"); [reflexivity |].
  induction q as [| r q IH]; simpl; congruence.
Qed.

Lemma In_client_filter (A : Type) (project_of : A -> Project.t)
      (user : User.t) (q : list A) (r : A) :
  In r (client_filter project_of user q)
  <-> In r q /\ visible user (project_of r) = true.
Proof. rewrite client_filter_visible. apply filter_In. Qed.

Lemma In_join_project (A : Type) (fk : A -> option Z)
      (rows : list A) (ps : list Project.t) (r : A) (p : Project.t) :
  In (r, p) (join_project fk rows ps)
  <-> In r rows /\ In p ps /\ references (fk r) p = true.
Proof.
  unfold join_project. rewrite in_flat_map. split.
  - intros (r' & Hr' & H). apply in_map_iff in H.
    destruct H as (p' & Heq & Hp'). inversion Heq; subst.
    apply filter_In in Hp'. tauto.
  - intros (Hr & Hp & Href). exists r. split; [exact Hr |].
    apply in_map_iff. exists p. split; [reflexivity |].
    apply filter_In. tauto.
Qed.

Lemma role_in_not_client (user : User.t) :
  role_in (User.role user) ["admin"; "freelancer"] = true ->
  (User.role user =? "client") = false.
Proof.
  unfold role_in. simpl. rewrite !orb_true_iff, !String.eqb_eq.
  intros [-> | [-> | H]]; (reflexivity || discriminate).
Qed.

Lemma client_not_role_in (user : User.t) :
  User.role user = "client" ->
  role_in (User.role user) ["admin"; "freelancer"] = false.
Proof. intros ->. reflexivity. Qed.

Unset Implicit Arguments.

(** * Scope of the views *)

(** A joined row [(x, p)] is in the scope of [user]: [p] is a project of the
    database, it is the project [x] references, and it carries the user's
    [client_id]. *)
Definition scoped_row {A : Type} (fk : A -> option Z) (db : Session)
           (user : User.t) (r : A * Project.t) : Prop :=
  In (snd r) (projects db)
  /\ references (fk (fst r)) (snd r) = true
  /\ Project.client_id (snd r) = User.client_id user.

Definition scoped_project (db : Session) (user : User.t) (p : Project.t) : Prop :=
  In p (projects db) /\ Project.client_id p = User.client_id user.

Lemma visible_client_id (user : User.t) (p : Project.t) :
  User.role user = "client" ->
  visible user p = true -> Project.client_id p = User.client_id user.
Proof.
  unfold visible. intros ->. simpl.
  destruct (User.client_id user) as [c |].
  - apply col_eq_Some.
  - apply col_eq_None.
Qed.

Section ClientRows.
Variables (db : Session) (user : User.t).
Hypothesis is_client : User.role user = "client".

Lemma scoped_join (A : Type) (fk : A -> option Z) (rows : list A)
      (q : list (A * Project.t)) (r : A * Project.t) :
  incl q (join_project fk rows (projects db)) ->
  In r (client_filter snd user q) -> scoped_row fk db user r.
Proof.
  intros Hq Hr. apply In_client_filter in Hr. destruct Hr as [Hr Hv].
  apply Hq in Hr. destruct r as [x p].
  apply In_join_project in Hr. destruct Hr as (_ & Hp & Href).
  repeat split; [exact Hp | exact Href |].
  apply visible_client_id; assumption.
Qed.

Lemma active_projects_scoped (p : Project.t) :
  In p (active_projects_query db user) -> scoped_project db user p.
Proof.
  unfold active_projects_query. intro H.
  apply In_client_filter in H. destruct H as [H Hv].
  apply filter_In in H. split; [tauto |].
  apply visible_client_id; assumption.
Qed.

Lemma dashboard_time_scoped (r : TimeEntry.t * Project.t) :
  In r (dashboard_time_query db user) ->
  scoped_row TimeEntry.project_id db user r.
Proof. eapply scoped_join, incl_refl. Qed.

Lemma month_hours_scoped (today : date) (r : TimeEntry.t * Project.t) :
  In r (month_hours db user today) ->
  scoped_row TimeEntry.project_id db user r.
Proof.
  unfold month_hours. intro H. apply filter_In in H.
  apply dashboard_time_scoped, H.
Qed.

Lemma pending_inv_scoped (r : Invoice.t * Project.t) :
  In r (pending_inv_query db user) ->
  scoped_row Invoice.project_id db user r.
Proof.
  eapply scoped_join. intros x Hx. apply filter_In in Hx.
  destruct Hx as [Hx _]. exact Hx.
Qed.

Lemma paid_inv_scoped (r : Invoice.t * Project.t) :
  In r (paid_inv_query db user) ->
  scoped_row Invoice.project_id db user r.
Proof.
  eapply scoped_join. intros x Hx. apply filter_In in Hx.
  destruct Hx as [Hx _]. exact Hx.
Qed.

Lemma time_logs_scoped (r : TimeEntry.t * Project.t) :
  In r (time_logs_query db user) ->
  scoped_row TimeEntry.project_id db user r.
Proof.
  unfold time_logs_query, order_by_date_desc. rewrite In_sort_desc.
  eapply scoped_join, incl_refl.
Qed.

Lemma reports_time_scoped (r : TimeEntry.t * Project.t) :
  In r (reports_time_query db user) ->
  scoped_row TimeEntry.project_id db user r.
Proof. eapply scoped_join, incl_refl. Qed.

Lemma inv_query_scoped (r : Invoice.t * Project.t) :
  In r (inv_query db user) ->
  scoped_row Invoice.project_id db user r.
Proof.
  eapply scoped_join. intros x Hx. apply filter_In in Hx.
  destruct Hx as [Hx _]. exact Hx.
Qed.

Lemma client_projects_for_form :
  projects_for_form (time_logs_context db user) = [].
Proof.
  unfold time_logs_context. cbn [projects_for_form].
  rewrite client_not_role_in by assumption. reflexivity.
Qed.

Lemma client_top_clients : top_clients (reports_context db user) = [].
Proof.
  unfold reports_context, top_clients_dict. cbn [top_clients].
  rewrite client_not_role_in by assumption. reflexivity.
Qed.
End ClientRows.

(** The records behind every figure of the three views of [user]: the
    projects counted and the rows summed or counted by the dashboard, the
    entries listed and totalled by the time log, the rows grouped by the
    reports. *)
Record views_scoped (db : Session) (user : User.t) (today : date) : Prop :=
  { scoped_active :
      Forall (scoped_project db user) (active_projects_query db user);
    scoped_month_hours :
      Forall (scoped_row TimeEntry.project_id db user)
             (month_hours db user today);
    scoped_pending :
      Forall (scoped_row Invoice.project_id db user)
             (pending_inv_query db user);
    scoped_paid :
      Forall (scoped_row Invoice.project_id db user) (paid_inv_query db user);
    scoped_entries :
      Forall (scoped_row TimeEntry.project_id db user)
             (entries (time_logs_context db user));
    scoped_form : projects_for_form (time_logs_context db user) = [];
    scoped_hours :
      Forall (scoped_row TimeEntry.project_id db user)
             (reports_time_query db user);
    scoped_earnings :
      Forall (scoped_row Invoice.project_id db user) (inv_query db user);
    scoped_top : top_clients (reports_context db user) = [] }.

Lemma client_views_scoped (db : Session) (user : User.t) (today : date) :
  User.role user = "client" -> views_scoped db user today.
Proof.
  intro Hc. constructor; try (apply Forall_forall; intros r Hr).
  - apply active_projects_scoped; assumption.
  - eapply month_hours_scoped; eassumption.
  - apply pending_inv_scoped; assumption.
  - apply paid_inv_scoped; assumption.
  - apply time_logs_scoped; assumption.
  - apply client_projects_for_form; assumption.
  - apply reports_time_scoped; assumption.
  - apply inv_query_scoped; assumption.
  - apply client_top_clients; assumption.
Qed.

(** C1.  For a client-role user linked to client [c], every project the
    dashboard counts, every time entry and invoice it sums or counts, every
    entry of the time log and every row behind the reports belongs to a
    project whose [client_id] is [c]; the user gets no projects to log time
    on and no client ranking. *)
Theorem client_summaries_own_records
        (db : Session) (user : User.t) (c : Z) (today : date) :
  User.role user = "client" ->
  User.client_id user = Some c ->
  views_scoped db user today
  /\ (forall p, In p (active_projects_query db user) ->
                Project.client_id p = Some c)
  /\ (forall r, In r (month_hours db user today)
                \/ In r (entries (time_logs_context db user))
                \/ In r (reports_time_query db user) ->
                references (TimeEntry.project_id (fst r)) (snd r) = true
                /\ Project.client_id (snd r) = Some c)
  /\ (forall r, In r (pending_inv_query db user)
                \/ In r (paid_inv_query db user)
                \/ In r (inv_query db user) ->
                references (Invoice.project_id (fst r)) (snd r) = true
                /\ Project.client_id (snd r) = Some c).
Proof.
  intros Hrole Hc.
  pose proof (client_views_scoped db user today Hrole)
    as [Ha Hm Hp Hd He _ Hh Hi _].
  rewrite Forall_forall in *.
  split; [apply client_views_scoped; assumption |].
  rewrite <- Hc. repeat split.
  - apply Ha; assumption.
  - destruct H as [H | [H | H]];
      [apply Hm in H | apply He in H | apply Hh in H]; apply H.
  - destruct H as [H | [H | H]];
      [apply Hm in H | apply He in H | apply Hh in H]; apply H.
  - destruct H as [H | [H | H]];
      [apply Hp in H | apply Hd in H | apply Hi in H]; apply H.
  - destruct H as [H | [H | H]];
      [apply Hp in H | apply Hd in H | apply Hi in H]; apply H.
Qed.

Lemma client_summaries_own_records_witness :
  User.role Sample.client = "client"
  /\ User.client_id Sample.client = Some 1
  /\ month_hours Sample.db Sample.client Sample.today
     = [(Sample.entry1, Sample.website)]
  /\ forall r, In r (month_hours Sample.db Sample.client Sample.today)
               \/ In r (entries (time_logs_context Sample.db Sample.client))
               \/ In r (reports_time_query Sample.db Sample.client) ->
               references (TimeEntry.project_id (fst r)) (snd r) = true
               /\ Project.client_id (snd r) = Some 1.
Proof.
  split; [reflexivity |]. split; [reflexivity |]. split; [reflexivity |].
  apply (client_summaries_own_records Sample.db Sample.client 1 Sample.today);
    reflexivity.
Defined.

(** ** A client-role user with no [client_id] *)

(** Every figure of the three views is zero and every listing empty. *)
Definition views_empty (db : Session) (user : User.t) (today : date) : Prop :=
  let d := dashboard_context db user today in
  let t := time_logs_context db user in
  let r := reports_context db user in
  (active_projects d = 0%nat /\ total_hours d = Q2Qc 0
   /\ pending_invoices d = 0%nat /\ total_earned d = Q2Qc 0)
  /\ (entries t = [] /\ projects_for_form t = [] /\ project_totals t = [])
  /\ (hours_data r = [] /\ monthly_data r = [] /\ top_clients r = []).

Lemma no_In_nil (A : Type) (l : list A) : (forall x, ~ In x l) -> l = [].
Proof.
  destruct l as [| a l]; [reflexivity |].
  intro H. exfalso. apply (H a). left. reflexivity.
Qed.

Section Unlinked.
Variables (db : Session) (user : User.t) (today : date).
Hypothesis is_client : User.role user = "client".
Hypothesis no_link : User.client_id user = None.
Hypothesis projects_linked :
  forall p, In p (projects db) -> Project.client_id p <> None.

Lemma no_scoped_project (p : Project.t) : ~ scoped_project db user p.
Proof.
  intros [Hp Hc]. rewrite no_link in Hc. exact (projects_linked p Hp Hc).
Qed.

Lemma no_scoped_row (A : Type) (fk : A -> option Z) (r : A * Project.t) :
  ~ scoped_row fk db user r.
Proof.
  intros (Hp & _ & Hc). rewrite no_link in Hc.
  exact (projects_linked _ Hp Hc).
Qed.

Lemma unlinked_queries_empty :
  active_projects_query db user = []
  /\ month_hours db user today = []
  /\ pending_inv_query db user = []
  /\ paid_inv_query db user = []
  /\ time_logs_query db user = []
  /\ reports_time_query db user = []
  /\ inv_query db user = [].
Proof.
  pose proof (client_views_scoped db user today is_client)
    as [Ha Hm Hp Hd He _ Hh Hi _].
  rewrite Forall_forall in *.
  repeat split; apply no_In_nil; intros x Hx.
  - exact (no_scoped_project x (Ha x Hx)).
  - exact (no_scoped_row _ _ x (Hm x Hx)).
  - exact (no_scoped_row _ _ x (Hp x Hx)).
  - exact (no_scoped_row _ _ x (Hd x Hx)).
  - exact (no_scoped_row _ _ x (He x Hx)).
  - exact (no_scoped_row _ _ x (Hh x Hx)).
  - exact (no_scoped_row _ _ x (Hi x Hx)).
Qed.

Lemma unlinked_views_empty : views_empty db user today.
Proof.
  destruct unlinked_queries_empty as (Ha & Hm & Hp & Hd & He & Hh & Hi).
  unfold views_empty, dashboard_context, time_logs_context, reports_context.
  cbn [active_projects total_hours pending_invoices total_earned
       entries projects_for_form project_totals
       hours_data monthly_data top_clients].
  rewrite Ha, Hm, Hp, Hd, He, Hh, Hi.
  unfold top_clients_dict.
  rewrite (client_not_role_in user is_client).
  repeat split. apply round1_zero.
Qed.
End Unlinked.

(** C5, as the code has it.  For a client-role user whose [client_id] is
    NULL the guard of every view becomes [Project.client_id IS NULL]: every
    record behind a figure belongs to a project whose [client_id] is NULL as
    well, and in a database where every project has a [client_id] every
    figure is zero and every listing is empty. *)
Theorem unlinked_client_sees_only_unowned
        (db : Session) (user : User.t) (today : date) :
  User.role user = "client" ->
  User.client_id user = None ->
  views_scoped db user today
  /\ (forall p, In p (active_projects_query db user) ->
                Project.client_id p = None)
  /\ ((forall p, In p (projects db) -> Project.client_id p <> None) ->
      views_empty db user today).
Proof.
  intros Hrole Hnone. split; [| split].
  - apply client_views_scoped, Hrole.
  - intros p Hp.
    apply (active_projects_scoped db user Hrole) in Hp.
    destruct Hp as [_ Hp]. congruence.
  - intro Hlinked. apply unlinked_views_empty; assumption.
Qed.

Lemma unlinked_client_sees_only_unowned_witness :
  User.role Sample.unlinked = "client"
  /\ User.client_id Sample.unlinked = None
  /\ (forall p, In p (projects Sample.db) -> Project.client_id p <> None)
  /\ views_empty Sample.db Sample.unlinked Sample.today.
Proof.
  assert (Hlinked : forall p, In p (projects Sample.db) ->
                              Project.client_id p <> None).
  { intros p Hp. simpl in Hp.
    repeat (destruct Hp as [<- | Hp]; [discriminate |]). destruct Hp. }
  split; [reflexivity |]. split; [reflexivity |]. split; [exact Hlinked |].
  apply (unlinked_client_sees_only_unowned
           Sample.db Sample.unlinked Sample.today eq_refl eq_refl).
  exact Hlinked.
Defined.

(** C5 as the claim has it fails: the unlinked client-role user is shown the
    project whose [client_id] is NULL as one active project. *)
Lemma unlinked_client_counts_orphan_project :
  User.role Sample.unlinked = "client"
  /\ User.client_id Sample.unlinked = None
  /\ active_projects_query Sample.db_orphan Sample.unlinked = [Sample.orphan]
  /\ active_projects
       (dashboard_context Sample.db_orphan Sample.unlinked Sample.today) = 1%nat
  /\ ~ views_empty Sample.db_orphan Sample.unlinked Sample.today.
Proof.
  repeat split.
  intros [[H _] _]. discriminate H.
Qed.

(** * Recording a time entry *)

Definition forbidden : Outcome unit :=
  Returned (RedirectResponse "/time-logs" HTTP_403_FORBIDDEN).

Definition see_other : Outcome unit :=
  Returned (RedirectResponse "/time-logs" HTTP_303_SEE_OTHER).

(** The call was refused: it raised, or it answered 403. *)
Definition refused (out : Outcome unit) : Prop :=
  out = forbidden \/ exists e, out = Raised e.

(** The tables other than [time_entries] are the same in [db] and [db']. *)
Definition same_other_tables (db db' : Session) : Prop :=
  users db' = users db
  /\ clients db' = clients db
  /\ projects db' = projects db
  /\ invoices db' = invoices db.

Lemma add_time_log_client (db : Session) (user : User.t)
      (project_id : Z) (hours : Float) (date description : string) :
  User.role user = "client" ->
  add_time_log db (Some user) project_id hours date description
  = (forbidden, db).
Proof. unfold add_time_log. intros ->. reflexivity. Qed.

Lemma add_time_log_bad_date (db : Session) (user : User.t)
      (project_id : Z) (hours : Float) (date description : string) :
  (User.role user =? "client") = false ->
  strptime date = None ->
  add_time_log db (Some user) project_id hours date description
  = (Raised ValueError, db).
Proof. unfold add_time_log. intros -> ->. reflexivity. Qed.

Lemma add_time_log_good_date (db : Session) (user : User.t)
      (project_id : Z) (hours : Float) (date description : string)
      (d : datetime.date) :
  (User.role user =? "client") = false ->
  strptime date = Some d ->
  add_time_log db (Some user) project_id hours date description
  = (see_other,
     add_time_entry db
       {| TimeEntry.id := next_id (map TimeEntry.id (time_entries db));
          TimeEntry.project_id := Some project_id;
          TimeEntry.hours := hours;
          TimeEntry.date := d;
          TimeEntry.description := description |}).
Proof. unfold add_time_log. intros -> ->. reflexivity. Qed.

(** A call that answers 303 was made by a user who is not a client, with a
    date that parses. *)
Lemma add_time_log_see_other_inv (db db' : Session) (user : option User.t)
      (project_id : Z) (hours : Float) (date description : string) :
  add_time_log db user project_id hours date description = (see_other, db') ->
  exists u d,
    user = Some u /\ (User.role u =? "client") = false
    /\ strptime date = Some d
    /\ db' = add_time_entry db
               {| TimeEntry.id := next_id (map TimeEntry.id (time_entries db));
                  TimeEntry.project_id := Some project_id;
                  TimeEntry.hours := hours;
                  TimeEntry.date := d;
                  TimeEntry.description := description |}.
Proof.
  unfold add_time_log. destruct user as [u |]; [| discriminate].
  destruct (User.role u =? "client") eqn:Hrole; [discriminate |].
  destruct (strptime date) as [d |] eqn:Hdate; [| discriminate].
  intro H. inversion H. exists u, d. auto.
Qed.

(** C4.  A client-role caller is answered 403 Forbidden and the tables are
    left as they were; the answer differs from what a malformed date gets a
    caller who may write, which is a [ValueError]. *)
Theorem client_add_time_log_forbidden
        (db : Session) (user : User.t)
        (project_id : Z) (hours : Float) (date description : string) :
  User.role user = "client" ->
  let r := add_time_log db (Some user) project_id hours date description in
  fst r = forbidden
  /\ snd r = db
  /\ time_entries (snd r) = time_entries db
  /\ forall db0 writer project_id0 hours0 date0 description0,
      (User.role writer =? "client") = false ->
      strptime date0 = None ->
      let r0 := add_time_log db0 (Some writer) project_id0 hours0 date0
                             description0 in
      fst r0 = Raised ValueError /\ fst r <> fst r0.
Proof.
  intros Hrole r. subst r.
  rewrite add_time_log_client by assumption. cbn [fst snd].
  repeat split.
  - rewrite add_time_log_bad_date by assumption. reflexivity.
  - rewrite add_time_log_bad_date by assumption. discriminate.
Qed.

Lemma client_add_time_log_forbidden_witness :
  User.role Sample.client = "client"
  /\ add_time_log Sample.db (Some Sample.client) 1 (Q2Qc 2) "2024-06-15" "Review"
     = (forbidden, Sample.db).
Proof.
  split; [reflexivity |].
  pose proof (client_add_time_log_forbidden
                Sample.db Sample.client 1 (Q2Qc 2) "2024-06-15" "Review"
                eq_refl) as (H1 & H2 & _).
  rewrite (surjective_pairing (add_time_log _ _ _ _ _ _)).
  rewrite H1, H2. reflexivity.
Defined.

(** C10.  A call that succeeds (answers 303) appends exactly one entry, made
    of the submitted values, after the entries there were, and changes no
    other table. *)
Theorem add_time_log_appends_one
        (db db' : Session) (user : option User.t)
        (project_id : Z) (hours : Float) (date description : string) :
  add_time_log db user project_id hours date description = (see_other, db') ->
  (exists e,
      time_entries db' = (time_entries db ++ [e])%list
      /\ TimeEntry.project_id e = Some project_id
      /\ TimeEntry.hours e = hours
      /\ strptime date = Some (TimeEntry.date e)
      /\ TimeEntry.description e = description)
  /\ List.length (time_entries db') = S (List.length (time_entries db))
  /\ firstn (List.length (time_entries db)) (time_entries db') = time_entries db
  /\ same_other_tables db db'.
Proof.
  intro H. apply add_time_log_see_other_inv in H.
  destruct H as (u & d & _ & _ & Hd & ->). cbn [add_time_entry time_entries].
  split; [| split; [| split]].
  - eexists. split; [reflexivity |]. cbn. auto.
  - rewrite length_app. simpl. lia.
  - rewrite firstn_app, Nat.sub_diag, firstn_all. simpl. apply app_nil_r.
  - repeat split.
Qed.

Lemma add_time_log_appends_one_witness :
  exists db',
    add_time_log Sample.db (Some Sample.freelancer) 5 (Q2Qc (3 # 2))
                 "2024-06-14" "Backend logic" = (see_other, db')
    /\ List.length (time_entries db') = 4%nat
    /\ same_other_tables Sample.db db'.
Proof.
  eexists. split; [reflexivity |].
  refine ((fun H => conj (proj1 (proj2 H)) (proj2 (proj2 (proj2 H))))
            (add_time_log_appends_one
               Sample.db _ (Some Sample.freelancer) 5 (Q2Qc (3 # 2))
               "2024-06-14" "Backend logic" eq_refl)).
Defined.

(** A caller in one of the writing roles, with a date that parses, succeeds. *)
Lemma add_time_log_succeeds (db : Session) (user : User.t)
      (project_id : Z) (hours : Float) (date description : string)
      (d : datetime.date) :
  role_in (User.role user) ["admin"; "freelancer"] = true ->
  strptime date = Some d ->
  fst (add_time_log db (Some user) project_id hours date description)
  = see_other.
Proof.
  intros Hrole Hd.
  rewrite (add_time_log_good_date db user project_id hours date description d
             (role_in_not_client user Hrole) Hd).
  reflexivity.
Qed.

(** C2, as the code has it.  For a caller in a writing role the date is the
    one input that is checked: a date string that does not parse raises
    [ValueError] before anything is added, leaving every table as it was;
    with a date that parses and an existing project the entry is added
    whatever the hours, zero and negative hours included. *)
Theorem add_time_log_checks_only_date
        (db : Session) (user : User.t)
        (project_id : Z) (hours : Float) (date description : string) :
  role_in (User.role user) ["admin"; "freelancer"] = true ->
  let r := add_time_log db (Some user) project_id hours date description in
  (strptime date = None ->
   fst r = Raised ValueError /\ snd r = db
   /\ List.length (time_entries (snd r)) = List.length (time_entries db))
  /\ (forall d, strptime date = Some d ->
                In project_id (map Project.id (projects db)) ->
                fst r = see_other
                /\ exists e, time_entries (snd r) = (time_entries db ++ [e])%list
                             /\ TimeEntry.hours e = hours
                             /\ TimeEntry.date e = d
                             /\ TimeEntry.project_id e = Some project_id).
Proof.
  intros Hrole r. subst r.
  pose proof (role_in_not_client user Hrole) as Hnc.
  split.
  - intro Hdate. rewrite add_time_log_bad_date by assumption.
    repeat split.
  - intros d Hdate _.
    rewrite (add_time_log_good_date db user project_id hours date description
               d Hnc Hdate).
    split; [reflexivity |]. eexists. split; [reflexivity |]. cbn. auto.
Qed.

Lemma add_time_log_checks_only_date_witness :
  role_in (User.role Sample.admin) ["admin"; "freelancer"] = true
  /\ strptime "2024-02-30" = None
  /\ add_time_log Sample.db (Some Sample.admin) 1 (Q2Qc 2) "2024-02-30" "Meeting"
     = (Raised ValueError, Sample.db).
Proof.
  split; [reflexivity |]. split; [reflexivity |].
  pose proof (add_time_log_checks_only_date
                Sample.db Sample.admin 1 (Q2Qc 2) "2024-02-30" "Meeting"
                eq_refl) as [H _].
  destruct (H eq_refl) as (H1 & H2 & _).
  rewrite (surjective_pairing (add_time_log _ _ _ _ _ _)).
  rewrite H1, H2. reflexivity.
Defined.

(** C2 as the claim has it fails: an admin's entry of zero hours, on an
    existing project and a valid date, is not refused; it is added. *)
Lemma zero_hours_entry_is_added :
  let r := add_time_log Sample.db (Some Sample.admin) 1 (Q2Qc 0)
                        "2024-06-15" "Nothing" in
  role_in (User.role Sample.admin) ["admin"; "freelancer"] = true
  /\ (Q2Qc 0 <= Q2Qc 0)%Qc
  /\ In 1 (map Project.id (projects Sample.db))
  /\ fst r = see_other
  /\ ~ refused (fst r)
  /\ List.length (time_entries Sample.db) = 3%nat
  /\ List.length (time_entries (snd r)) = 4%nat
  /\ map (fun e => this (TimeEntry.hours e)) (time_entries (snd r))
     = [3; 5 # 2; 4; 0]%Q.
Proof.
  cbv zeta. repeat split.
  - apply Qcle_refl.
  - left. reflexivity.
  - intros [H | [e H]]; discriminate H.
Qed.

(** * Totals of the time log *)

Lemma In_visible_join (A : Type) (fk : A -> option Z) (db : Session)
      (user : User.t) (rows : list A) (x : A) (p : Project.t) :
  In (x, p) (client_filter snd user (join_project fk rows (projects db)))
  <-> In x rows /\ In p (projects db)
      /\ references (fk x) p = true /\ visible user p = true.
Proof.
  rewrite In_client_filter, In_join_project. cbn [snd]. tauto.
Qed.

(** The entries of the time log are the time entries joined with their
    project, for the projects the user may see. *)
Lemma In_time_logs_query (db : Session) (user : User.t)
      (t : TimeEntry.t) (p : Project.t) :
  In (t, p) (time_logs_query db user)
  <-> In t (time_entries db) /\ In p (projects db)
      /\ references (TimeEntry.project_id t) p = true
      /\ visible user p = true.
Proof.
  unfold time_logs_query, order_by_date_desc.
  rewrite In_sort_desc. apply In_visible_join.
Qed.

Section SumOfValues.
Variables (K : Type) (eqb : K -> K -> bool).


End SumOfValues.



Lemma add_to_totals_keys (totals : dict Z Float)
      (entry : TimeEntry.t * Project.t) (pid : Z) :
  In pid (dict_keys (add_to_totals totals entry))
  <-> pid = Project.id (snd entry) \/ In pid (dict_keys totals).
Proof.
  unfold add_to_totals. rewrite (@In_dict_keys_set _ _ Z.eqb Z.eqb_eq).
  destruct (dict_contains Z.eqb totals (Project.id (snd entry))).
  - tauto.
  - rewrite (@In_dict_keys_set _ _ Z.eqb Z.eqb_eq). tauto.
Qed.

Lemma add_to_totals_NoDup (totals : dict Z Float)
      (entry : TimeEntry.t * Project.t) :
  NoDup (dict_keys totals) -> NoDup (dict_keys (add_to_totals totals entry)).
Proof.
  intro H. unfold add_to_totals. apply (@NoDup_dict_keys_set _ _ Z.eqb Z.eqb_eq).
  destruct (dict_contains Z.eqb totals (Project.id (snd entry))).
  - exact H.
  - apply (@NoDup_dict_keys_set _ _ Z.eqb Z.eqb_eq), H.
Qed.

Lemma fold_add_to_totals_keys (l : list (TimeEntry.t * Project.t))
      (totals : dict Z Float) (pid : Z) :
  In pid (dict_keys (fold_left add_to_totals l totals))
  <-> In pid (dict_keys totals)
      \/ exists e, In e l /\ Project.id (snd e) = pid.
Proof.
  revert totals. induction l as [| e l IH]; intro totals; cbn [fold_left].
  - split; [auto | intros [H | (e & [] & _)]; exact H].
  - rewrite IH, add_to_totals_keys. split.
    + intros [[-> | H] | (e' & He' & Hp)].
      * right. exists e. split; [left |]; reflexivity.
      * left. exact H.
      * right. exists e'. split; [right |]; assumption.
    + intros [H | (e' & [<- | He'] & Hp)].
      * left. right. exact H.
      * left. left. symmetry. exact Hp.
      * right. exists e'. split; assumption.
Qed.

Lemma fold_add_to_totals_NoDup (l : list (TimeEntry.t * Project.t))
      (totals : dict Z Float) :
  NoDup (dict_keys totals) ->
  NoDup (dict_keys (fold_left add_to_totals l totals)).
Proof.
  revert totals. induction l as [| e l IH]; intros totals H; cbn [fold_left].
  - exact H.
  - apply IH, add_to_totals_NoDup, H.
Qed.


(** C9.  The keys of the per-project totals are the identities of the
    projects that have a visible time entry, each once: a key is there
    exactly when some time entry references a project of that identity that
    the user may see. *)
Theorem project_totals_keys (db : Session) (user : User.t) :
  let view := time_logs_context db user in
  NoDup (dict_keys (project_totals view))
  /\ forall pid,
      In pid (dict_keys (project_totals view))
      <-> exists t p,
          In (t, p) (entries view)
          /\ In t (time_entries db) /\ In p (projects db)
          /\ references (TimeEntry.project_id t) p = true
          /\ visible user p = true
          /\ Project.id p = pid.
Proof.
  cbv zeta. unfold time_logs_context. cbn [project_totals entries]. split.
  - apply fold_add_to_totals_NoDup. constructor.
  - intro pid. rewrite fold_add_to_totals_keys. cbn [dict_keys map In]. split.
    + intros [[] | ([t p] & He & Hp)]. exists t, p.
      pose proof He as He'. apply In_time_logs_query in He'. tauto.
    + intros (t & p & He & _ & _ & _ & _ & Hp).
      right. exists (t, p). auto.
Qed.

(** * Hours by project name *)

(** The visible rows whose project is called [pname]. *)
Definition rows_named (pname : string) (rows : list (TimeEntry.t * Project.t))
  : list (TimeEntry.t * Project.t) :=
  filter (fun e => Project.name (snd e) =? pname) rows.

Lemma In_reports_time_query (db : Session) (user : User.t)
      (t : TimeEntry.t) (p : Project.t) :
  In (t, p) (reports_time_query db user)
  <-> In t (time_entries db) /\ In p (projects db)
      /\ references (TimeEntry.project_id t) p = true
      /\ visible user p = true.
Proof. apply In_visible_join. Qed.

Lemma dict_get_default_set (d : dict string Float) (k k' : string) (v : Float) :
  dict_get_default String.eqb (dict_set String.eqb d k v) k' (Q2Qc 0)
  = if k =? k' then v else dict_get_default String.eqb d k' (Q2Qc 0).
Proof.
  unfold dict_get_default.
  rewrite (@dict_get_set _ _ String.eqb String.eqb_eq).
  destruct (k =? k'); reflexivity.
Qed.

Lemma add_hours_get (d : dict string Float) (e : TimeEntry.t * Project.t)
      (pname : string) :
  dict_get_default String.eqb (add_hours d e) pname (Q2Qc 0)
  = (dict_get_default String.eqb d pname (Q2Qc 0)
     + py_sum (map (fun e => TimeEntry.hours (fst e)) (rows_named pname [e])))%Qc.
Proof.
  unfold add_hours, rows_named. rewrite dict_get_default_set. cbn [filter].
  destruct (Project.name (snd e) =? pname) eqn:E; cbn [map].
  - apply String.eqb_eq in E. rewrite E, py_sum_cons, py_sum_nil. ring.
  - rewrite py_sum_nil. ring.
Qed.

Lemma fold_add_hours_get (l : list (TimeEntry.t * Project.t))
      (d : dict string Float) (pname : string) :
  dict_get_default String.eqb (fold_left add_hours l d) pname (Q2Qc 0)
  = (dict_get_default String.eqb d pname (Q2Qc 0)
     + py_sum (map (fun e => TimeEntry.hours (fst e)) (rows_named pname l)))%Qc.
Proof.
  revert d. induction l as [| e l IH]; intro d; cbn [fold_left].
  - unfold rows_named. cbn [filter map]. rewrite py_sum_nil. ring.
  - rewrite IH, add_hours_get. unfold rows_named. cbn [filter].
    destruct (Project.name (snd e) =? pname); cbn [map].
    + rewrite !py_sum_cons, py_sum_nil. ring.
    + rewrite py_sum_nil. ring.
Qed.

Lemma fold_add_hours_keys (l : list (TimeEntry.t * Project.t))
      (d : dict string Float) (pname : string) :
  In pname (dict_keys (fold_left add_hours l d))
  <-> In pname (dict_keys d)
      \/ exists e, In e l /\ Project.name (snd e) = pname.
Proof.
  revert d. induction l as [| e l IH]; intro d; cbn [fold_left].
  - split; [auto | intros [H | (e & [] & _)]; exact H].
  - rewrite IH. unfold add_hours at 1.
    rewrite (@In_dict_keys_set _ _ String.eqb String.eqb_eq). split.
    + intros [[-> | H] | (e' & He' & Hp)].
      * right. exists e. split; [left |]; reflexivity.
      * left. exact H.
      * right. exists e'. split; [right |]; assumption.
    + intros [H | (e' & [<- | He'] & Hp)].
      * left. right. exact H.
      * left. left. symmetry. exact Hp.
      * right. exists e'. split; assumption.
Qed.

Lemma fold_add_hours_NoDup (l : list (TimeEntry.t * Project.t))
      (d : dict string Float) :
  NoDup (dict_keys d) -> NoDup (dict_keys (fold_left add_hours l d)).
Proof.
  revert d. induction l as [| e l IH]; intros d H; cbn [fold_left].
  - exact H.
  - apply IH. unfold add_hours.
    apply (@NoDup_dict_keys_set _ _ String.eqb String.eqb_eq), H.
Qed.

(** C8.  [hours_data] has one key for each name borne by a project with a
    visible time entry, and under that name the hours of the visible entries
    of all the projects so named: projects sharing a name share a key. *)
Theorem hours_data_by_project_name (db : Session) (user : User.t) :
  let report := reports_context db user in
  let rows := reports_time_query db user in
  NoDup (dict_keys (hours_data report))
  /\ (forall pname,
         In pname (dict_keys (hours_data report))
         <-> exists t p,
             In t (time_entries db) /\ In p (projects db)
             /\ references (TimeEntry.project_id t) p = true
             /\ visible user p = true
             /\ Project.name p = pname)
  /\ (forall pname,
         In pname (dict_keys (hours_data report)) ->
         dict_get String.eqb (hours_data report) pname
         = Some (py_sum (map (fun e => TimeEntry.hours (fst e))
                             (rows_named pname rows))))
  /\ (forall pname,
         dict_get_default String.eqb (hours_data report) pname (Q2Qc 0)
         = py_sum (map (fun e => TimeEntry.hours (fst e))
                       (rows_named pname rows))).
Proof.
  cbv zeta. unfold reports_context. cbn [hours_data].
  assert (Hget : forall pname,
             dict_get_default String.eqb
               (fold_left add_hours (reports_time_query db user) []) pname
               (Q2Qc 0)
             = py_sum (map (fun e => TimeEntry.hours (fst e))
                           (rows_named pname (reports_time_query db user)))).
  { intro pname. rewrite fold_add_hours_get. unfold dict_get_default.
    cbn [dict_get]. ring. }
  split; [| split; [| split]].
  - apply fold_add_hours_NoDup. constructor.
  - intro pname. rewrite fold_add_hours_keys. cbn [dict_keys map In]. split.
    + intros [[] | ([t p] & He & Hp)]. exists t, p.
      apply In_reports_time_query in He. tauto.
    + intros (t & p & Ht & Hp & Hr & Hv & Hn).
      right. exists (t, p). split; [| exact Hn].
      apply In_reports_time_query. tauto.
  - intros pname Hin. specialize (Hget pname).
    unfold dict_get_default in Hget.
    destruct (dict_get String.eqb
                (fold_left add_hours (reports_time_query db user) []) pname)
      as [v |] eqn:E.
    + rewrite Hget. reflexivity.
    + apply (@dict_get_None _ _ String.eqb String.eqb_eq) in E.
      contradiction.
  - exact Hget.
Qed.

(** * Hours of the month *)

(** A time entry the user may see: it references a project in the user's
    scope. *)
Definition entry_visible (db : Session) (user : User.t) (t : TimeEntry.t) : bool :=
  existsb (fun p => references (TimeEntry.project_id t) p && visible user p)
          (projects db).

Lemma filter_filter_andb (A : Type) (f g : A -> bool) (l : list A) :
  filter f (filter g l) = filter (fun x => g x && f x) l.
Proof.
  induction l as [| a l IH]; [reflexivity |]. cbn [filter].
  destruct (g a); cbn [filter andb]; rewrite IH; reflexivity.
Qed.

Lemma existsb_filter (A : Type) (f g : A -> bool) (l : list A) :
  existsb (fun x => f x && g x) l = existsb g (filter f l).
Proof.
  induction l as [| a l IH]; [reflexivity |]. cbn [existsb filter].
  destruct (f a); cbn [existsb andb]; rewrite IH; reflexivity.
Qed.

(** Primary keys are unique: a key references at most one project. *)
Lemma references_at_most_one (fk : option Z) (ps : list Project.t) :
  NoDup (map Project.id ps) ->
  filter (references fk) ps = [] \/ exists p, filter (references fk) ps = [p].
Proof.
  intro H. induction ps as [| p ps IH]; cbn [map filter] in *.
  - left. reflexivity.
  - inversion H as [| ? ? Hnotin Hnodup]; subst.
    destruct (references fk p) eqn:E.
    + right. exists p. f_equal. apply no_In_nil. intros q Hq.
      apply filter_In in Hq. destruct Hq as [Hq Hid].
      destruct fk as [k |]; cbn [references] in *; [| discriminate].
      apply Z.eqb_eq in Hid, E. apply Hnotin. rewrite <- E, Hid.
      apply in_map, Hq.
    + apply IH, Hnodup.
Qed.

(** With unique primary keys, the rows of a join that pass a test on the
    project and a test on the row are, row for row, the rows that pass the
    test and reference a project passing the other. *)
Lemma join_project_fst (A : Type) (fk : A -> option Z)
      (g : Project.t -> bool) (h : A -> bool)
      (rows : list A) (ps : list Project.t) :
  NoDup (map Project.id ps) ->
  map fst (filter (fun r => g (snd r) && h (fst r)) (join_project fk rows ps))
  = filter (fun x => existsb (fun p => references (fk x) p && g p) ps && h x)
           rows.
Proof.
  intro Hps. unfold join_project.
  induction rows as [| x rows IH]; [reflexivity |].
  cbn [flat_map filter]. rewrite filter_app, map_app, IH, existsb_filter.
  destruct (references_at_most_one (fk x) ps Hps) as [-> | [p ->]];
    cbn [map filter existsb fst snd orb andb].
  - reflexivity.
  - rewrite orb_false_r. destruct (g p && h x); reflexivity.
Qed.

Lemma month_hours_entries (db : Session) (user : User.t) (today : date) :
  NoDup (map Project.id (projects db)) ->
  map fst (month_hours db user today)
  = filter (fun t => entry_visible db user t
                     && date_leb (replace_day today 1) (TimeEntry.date t))
           (time_entries db).
Proof.
  intro Hps. unfold month_hours, dashboard_time_query, start_of_month.
  rewrite client_filter_visible, filter_filter_andb.
  apply (join_project_fst _ TimeEntry.project_id (visible user)
           (fun t => date_leb (replace_day today 1) (TimeEntry.date t))
           (time_entries db) (projects db) Hps).
Qed.

(** C7.  The dashboard's hours of the month are the sum of the hours, as
    stored, of the visible time entries dated on or after the first day of
    the month of the reference date; the sum is rounded to one decimal once,
    for display. *)
Theorem total_hours_of_month (db : Session) (user : User.t) (today : date) :
  NoDup (map Project.id (projects db)) ->
  total_hours (dashboard_context db user today)
  = round1
      (py_sum
         (map TimeEntry.hours
              (filter (fun t => entry_visible db user t
                                && date_leb (mkdate (year today) (month today) 1)
                                            (TimeEntry.date t))
                      (time_entries db)))).
Proof.
  intro Hps. unfold dashboard_context. cbn [total_hours].
  change (mkdate (year today) (month today) 1) with (replace_day today 1).
  rewrite <- (month_hours_entries db user today Hps), map_map.
  reflexivity.
Qed.

Lemma total_hours_of_month_witness :
  NoDup (map Project.id (projects Sample.db))
  /\ this (total_hours (dashboard_context Sample.db Sample.admin Sample.today))
     = (11 # 2)%Q
  /\ total_hours (dashboard_context Sample.db Sample.admin Sample.today)
     = round1
         (py_sum
            (map TimeEntry.hours
                 (filter (fun t => entry_visible Sample.db Sample.admin t
                                   && date_leb (mkdate 2024 6 1)
                                               (TimeEntry.date t))
                         (time_entries Sample.db)))).
Proof.
  assert (Hps : NoDup (map Project.id (projects Sample.db))).
  { cbn. repeat constructor; cbn; intuition discriminate. }
  split; [exact Hps |]. split; [reflexivity |].
  exact (total_hours_of_month Sample.db Sample.admin Sample.today Hps).
Defined.

(** * Ranking of the clients *)

Lemma filter_map_comm (A B : Type) (f : A -> B) (p : B -> bool) (l : list A) :
  filter p (map f l) = map f (filter (fun a => p (f a)) l).
Proof.
  induction l as [| a l IH]; [reflexivity |]. cbn [map filter].
  destruct (p (f a)); cbn [map]; rewrite IH; reflexivity.
Qed.

Section TopClients.
Variable db : Session.

(** A client's entry in the ranking. *)
Definition ranked (c : Client.t) : string * Float :=
  (Client.name c, paid_total db c).

Definition has_earned (c : Client.t) : bool :=
  Qcltb (Q2Qc 0) (paid_total db c).

(** With client names unique, the loop adds the clients that have earned
    something, in the order of the clients query. *)
Lemma fold_add_client (cs : list Client.t) (top : dict string Float) :
  NoDup (dict_keys top ++ map Client.name cs) ->
  fold_left (add_client db) cs top
  = (top ++ map ranked (filter has_earned cs))%list.
Proof.
  revert top. induction cs as [| c cs IH]; intros top H; cbn [fold_left].
  - cbn. symmetry. apply app_nil_r.
  - cbn [map filter] in *. unfold add_client at 2. fold (has_earned c).
    destruct (has_earned c).
    + rewrite (@dict_set_new _ _ String.eqb String.eqb_eq).
      * rewrite IH.
        -- rewrite <- app_assoc. reflexivity.
        -- unfold dict_keys in *. rewrite map_app, <- app_assoc. exact H.
      * apply NoDup_remove_2 in H. intro Hin. apply H.
        apply in_or_app. left. exact Hin.
    + apply IH. apply NoDup_remove_1 in H. exact H.
Qed.

Lemma top_clients_dict_writers (user : User.t) :
  role_in (User.role user) ["admin"; "freelancer"] = true ->
  NoDup (map Client.name (clients db)) ->
  top_clients_dict db user = map ranked (filter has_earned (clients db)).
Proof.
  intros Hrole Hnames. unfold top_clients_dict. rewrite Hrole.
  apply (fold_add_client (clients db) []). exact Hnames.
Qed.
End TopClients.

(** The order the claim asks of the ranking: a larger total first, and for
    equal totals the smaller name first. *)
Definition by_total_then_name (x y : string * Float) : Prop :=
  (snd y < snd x)%Qc \/ (snd x = snd y /\ (fst x <=? fst y) = true).

(** C3, as the code has it.  For a caller in a writing role, and client
    names being unique, the ranking lists each client whose paid invoices,
    over all the client's projects, sum to more than zero, with that sum;
    it is sorted by decreasing sum, and clients with equal sums stay in the
    order the clients query returns them.  For a client-role caller the
    ranking is empty. *)
Theorem top_clients_ranking (db : Session) (user : User.t) :
  NoDup (map Client.name (clients db)) ->
  let ranking := top_clients (reports_context db user) in
  (role_in (User.role user) ["admin"; "freelancer"] = true ->
   (forall name total,
       In (name, total) ranking
       <-> exists c, In c (clients db) /\ Client.name c = name
                     /\ paid_total db c = total /\ (Q2Qc 0 < total)%Qc)
   /\ StronglySorted (fun x y => (snd y <= snd x)%Qc) ranking
   /\ (forall total,
          filter (fun x => Qceqb (snd x) total) ranking
          = map (ranked db)
                (filter (fun c => has_earned db c
                                  && Qceqb (paid_total db c) total)
                        (clients db))))
  /\ (User.role user = "client" -> ranking = []).
Proof.
  intros Hnames ranking. subst ranking. split.
  - intro Hrole. unfold reports_context. cbn [top_clients].
    unfold sorted_reverse, dict_items.
    rewrite (top_clients_dict_writers db user Hrole Hnames).
    split; [| split].
    + intros name total. rewrite In_sort_desc, in_map_iff. split.
      * intros (c & Heq & Hc). apply filter_In in Hc. destruct Hc as [Hc Hpos].
        inversion Heq; subst. exists c. repeat split; [exact Hc |].
        apply Qcltb_lt, Hpos.
      * intros (c & Hc & <- & <- & Hpos). exists c. split; [reflexivity |].
        apply filter_In. split; [exact Hc |]. apply Qcltb_lt, Hpos.
    + eapply StronglySorted_ind
        with (P := fun l => StronglySorted (fun x y => (snd y <= snd x)%Qc) l);
        [constructor | |
         apply (sort_desc_sorted
                  (fun x y : string * Qc => Qcleb (snd y) (snd x)))].
      * intros a l _ IH Ha. constructor; [exact IH |].
        eapply Forall_impl; [| exact Ha].
        intros b Hb. apply Qcleb_le, Hb.
      * intros x y. apply Qcleb_total.
      * intros x y z Hxy Hyz. eapply Qcleb_trans; eassumption.
    + intro total. rewrite sort_desc_stable.
      * rewrite filter_map_comm, filter_filter_andb. reflexivity.
      * intros x y Hx Hy. apply Qceqb_eq in Hx, Hy. apply Qcleb_le.
        rewrite Hx, Hy. apply Qcle_refl.
  - intro Hrole. apply client_top_clients, Hrole.
Qed.

Lemma top_clients_ranking_witness :
  NoDup (map Client.name (clients Sample.db))
  /\ role_in (User.role Sample.admin) ["admin"; "freelancer"] = true
  /\ map fst (top_clients (reports_context Sample.db Sample.admin))
     = ["TechCorp"; "DesignStudio"]
  /\ StronglySorted (fun x y => (snd y <= snd x)%Qc)
                    (top_clients (reports_context Sample.db Sample.admin)).
Proof.
  assert (Hnames : NoDup (map Client.name (clients Sample.db))).
  { cbn. repeat constructor; cbn; intuition discriminate. }
  split; [exact Hnames |]. split; [reflexivity |]. split; [reflexivity |].
  exact (proj1 (proj2 (proj1 (top_clients_ranking Sample.db Sample.admin Hnames)
                             eq_refl))).
Defined.

(** C3 as the claim has it fails: of two clients with equal totals the one
    the clients query returns first is ranked first, whatever the names. *)
Lemma tied_clients_keep_query_order :
  let ranking := top_clients (reports_context Sample.db_tie Sample.admin) in
  role_in (User.role Sample.admin) ["admin"; "freelancer"] = true
  /\ map Client.name (clients Sample.db_tie) = ["Zeta"; "Alpha"]
  /\ map fst ranking = ["Zeta"; "Alpha"]
  /\ map (fun x => this (snd x)) ranking = [100; 100]%Q
  /\ ~ StronglySorted by_total_then_name ranking.
Proof.
  cbv zeta. repeat split.
  intro H.
  change (top_clients (reports_context Sample.db_tie Sample.admin))
    with [ranked Sample.db_tie Sample.zeta; ranked Sample.db_tie Sample.alpha]
    in H.
  apply StronglySorted_inv in H. destruct H as [_ H].
  apply Forall_inv in H. destruct H as [H | [_ H]].
  - vm_compute in H. discriminate H.
  - vm_compute in H. discriminate H.
Qed.

(** * The remaining handlers

    The session of a request is the dictionary behind [request.session];
    the handlers here read and write its key ["user_id"]. *)

Definition get_current_user (session : dict string Z) (db : Session)
  : option User.t :=
  match dict_get String.eqb session "user_id" with
  | None => None
  | Some user_id =>
      (* [if not user_id]: an absent id, and the id 0 *)
      if (user_id =? 0)%Z then None
      else find (fun u => (User.id u =? user_id)%Z) (users db)
  end.

(** [HTTPException(status_code=..., detail=...)] *)
Record HTTPException : Type := mkHTTPException
  { exc_status_code : Z; exc_detail : string }.

Definition login_required (session : dict string Z) (db : Session)
  : User.t + HTTPException :=
  match get_current_user session db with
  | None => inr (mkHTTPException HTTP_307_TEMPORARY_REDIRECT "Not authenticated")
  | Some user => inl user
  end.

Definition get_user_or_redirect (session : dict string Z) (db : Session)
  : option User.t :=
  match get_current_user session db with
  | None => None
  | Some user => Some user
  end.

(** GET / *)
Definition root (user : option User.t) : Response unit :=
  match user with
  | Some _ => redirect _ "/dashboard"
  | None => redirect _ "/login"
  end.

(** The context of [login.html]: the error message, when there is one. *)
Definition login_page : Response (option string) :=
  TemplateResponse "login.html" None.

Section Login.
(** [verify_password(plain_password, hashed_password)], the check of the
    password library. *)
Variable verify_password : string -> string -> bool.

(** POST /login: the response and the session after the call. *)
Definition login (session : dict string Z) (db : Session)
           (username password : string)
  : Response (option string) * dict string Z :=
  match find (fun u => User.username u =? username) (users db) with
  | None =>
      (TemplateResponse "login.html" (Some "Invalid credentials"), session)
  | Some user =>
      if verify_password password (User.hashed_password user)
      then (RedirectResponse "/dashboard" HTTP_303_SEE_OTHER,
            dict_set String.eqb session "user_id" (User.id user))
      else
        (TemplateResponse "login.html" (Some "Invalid credentials"), session)
  end.
End Login.

(** GET /logout: [request.session.clear()] *)
Definition logout (session : dict string Z) : Response unit * dict string Z :=
  (redirect _ "/login", []).

(** ** GET /projects *)

(** [db.query(models.Project).join(models.Client)]: each project with the
    client it references; a project referencing no client is dropped. *)
Definition join_client (ps : list Project.t) (cs : list Client.t)
  : list (Project.t * Client.t) :=
  flat_map
    (fun p => map (fun c => (p, c))
                  (filter (fun c => col_eq (Project.client_id p)
                                           (Some (Client.id c))) cs))
    ps.

Definition projects_list (db : Session) (user : User.t)
  : list (Project.t * Client.t) :=
  client_filter fst user (join_client (projects db) (clients db)).

(** The handler of [/projects] (the table has the name [projects]). *)
Definition projects_view (db : Session) (user : option User.t)
  : Response (User.t * list (Project.t * Client.t)) :=
  match user with
  | None => redirect _ "/login"
  | Some u => TemplateResponse "projects.html" (u, projects_list db u)
  end.

(** ** GET /invoices *)

Definition invoices_list (db : Session) (user : User.t)
  : list (Invoice.t * Project.t) :=
  sort_desc
    (fun x y => date_leb (Invoice.issued_date (fst y))
                         (Invoice.issued_date (fst x)))
    (client_filter snd user
       (join_project Invoice.project_id (invoices db) (projects db))).

(** The handler of [/invoices] (the table has the name [invoices]). *)
Definition invoices_view (db : Session) (user : option User.t)
  : Response (User.t * list (Invoice.t * Project.t)) :=
  match user with
  | None => redirect _ "/login"
  | Some u => TemplateResponse "invoices.html" (u, invoices_list db u)
  end.

(** * Who is logged in *)

(** A primary key finds its row. *)
Lemma find_user_by_id (us : list User.t) (u : User.t) :
  NoDup (map User.id us) -> In u us ->
  find (fun x => (User.id x =? User.id u)%Z) us = Some u.
Proof.
  induction us as [| a us IH]; cbn [map find In]; intros Hnd Hin.
  - destruct Hin.
  - inversion Hnd as [| ? ? Hnotin Hnd']; subst.
    destruct (Z.eqb_spec (User.id a) (User.id u)) as [Heq | Hne].
    + destruct Hin as [-> | Hin]; [reflexivity |].
      exfalso. apply Hnotin. rewrite Heq. apply in_map, Hin.
    + destruct Hin as [-> | Hin]; [congruence |]. apply IH; assumption.
Qed.

Lemma get_current_user_sound (session : dict string Z) (db : Session)
      (u : User.t) :
  get_current_user session db = Some u ->
  In u (users db)
  /\ dict_get String.eqb session "user_id" = Some (User.id u)
  /\ User.id u <> 0%Z.
Proof.
  unfold get_current_user.
  destruct (dict_get String.eqb session "user_id") as [uid |]; [| discriminate].
  destruct (Z.eqb_spec uid 0) as [| Hnz]; [discriminate |].
  intro H. apply find_some in H. destruct H as [Hin Hid].
  apply Z.eqb_eq in Hid. subst uid. auto.
Qed.

Lemma get_current_user_complete (session : dict string Z) (db : Session)
      (u : User.t) :
  NoDup (map User.id (users db)) ->
  In u (users db) ->
  dict_get String.eqb session "user_id" = Some (User.id u) ->
  User.id u <> 0%Z ->
  get_current_user session db = Some u.
Proof.
  intros Hnd Hin Hs Hnz. unfold get_current_user. rewrite Hs.
  destruct (Z.eqb_spec (User.id u) 0) as [| _]; [contradiction |].
  apply find_user_by_id; assumption.
Qed.

(** X1.  With user ids unique, the current user of a request is [u] exactly
    when [u] is a row of the users table, the session's ["user_id"] is the
    id of [u], and that id is not 0: a session holding the id 0 is treated
    as holding no id. *)
Theorem current_user_is_session_user
        (session : dict string Z) (db : Session) (u : User.t) :
  NoDup (map User.id (users db)) ->
  get_current_user session db = Some u
  <-> In u (users db)
      /\ dict_get String.eqb session "user_id" = Some (User.id u)
      /\ User.id u <> 0%Z.
Proof.
  intro Hnd. split.
  - apply get_current_user_sound.
  - intros (Hin & Hs & Hnz). apply get_current_user_complete; assumption.
Qed.

Lemma sample_user_ids_unique : NoDup (map User.id (users Sample.db)).
Proof. cbn. repeat constructor; cbn; intuition discriminate. Qed.

Lemma current_user_is_session_user_witness :
  NoDup (map User.id (users Sample.db))
  /\ get_current_user [("user_id", 3%Z)] Sample.db = Some Sample.client.
Proof.
  split; [exact sample_user_ids_unique |].
  apply (current_user_is_session_user
           [("user_id", 3%Z)] Sample.db Sample.client sample_user_ids_unique).
  split; [| split].
  - right. right. left. reflexivity.
  - reflexivity.
  - discriminate.
Defined.

(** X2.  A request has no current user exactly when its session holds no
    ["user_id"], or holds 0, or holds an id no row of the users table has (a
    user deleted since the login). *)
Theorem no_current_user (session : dict string Z) (db : Session) :
  get_current_user session db = None
  <-> dict_get String.eqb session "user_id" = None
      \/ dict_get String.eqb session "user_id" = Some 0%Z
      \/ exists uid, dict_get String.eqb session "user_id" = Some uid
                     /\ ~ In uid (map User.id (users db)).
Proof.
  unfold get_current_user.
  destruct (dict_get String.eqb session "user_id") as [uid |].
  - destruct (Z.eqb_spec uid 0) as [-> | Hnz].
    + split; auto.
    + split.
      * intro H. right. right. exists uid. split; [reflexivity |].
        intro Hin. apply in_map_iff in Hin. destruct Hin as (u & Hid & Hin).
        apply (find_none _ _ H) in Hin. apply Z.eqb_neq in Hin. contradiction.
      * intros [H | [H | (uid' & H & Hnotin)]]; try congruence.
        inversion H; subst uid'.
        destruct (find (fun u => (User.id u =? uid)%Z) (users db)) as [u |] eqn:E;
          [| reflexivity].
        apply find_some in E. destruct E as [Hin Hid].
        apply Z.eqb_eq in Hid. exfalso. apply Hnotin. rewrite <- Hid.
        apply in_map, Hin.
  - split; auto.
Qed.

Section LoginFacts.
Variable verify_password : string -> string -> bool.

Definition invalid_credentials : Response (option string) :=
  TemplateResponse "login.html" (Some "Invalid credentials").

Definition to_dashboard : Response (option string) :=
  RedirectResponse "/dashboard" HTTP_303_SEE_OTHER.

Lemma login_cases (session : dict string Z) (db : Session)
      (username password : string) :
  let r := login verify_password session db username password in
  (fst r = invalid_credentials /\ snd r = session
   /\ forall u, find (fun x => User.username x =? username) (users db) = Some u ->
                verify_password password (User.hashed_password u) = false)
  \/ (fst r = to_dashboard
      /\ exists u,
          find (fun x => User.username x =? username) (users db) = Some u
          /\ verify_password password (User.hashed_password u) = true
          /\ snd r = dict_set String.eqb session "user_id" (User.id u)).
Proof.
  cbv zeta. unfold login.
  destruct (find (fun x => User.username x =? username) (users db)) as [u |].
  - destruct (verify_password password (User.hashed_password u)) eqn:E.
    + right. split; [reflexivity |]. exists u. auto.
    + left. repeat split. intros u' H. inversion H; subst. exact E.
  - left. repeat split. discriminate.
Qed.
End LoginFacts.

(** X3.  A login that is answered with the redirect to the dashboard found a
    user of that name whose stored hash the password verifies against, and
    leaves that user's id in the session, replacing any id that was there;
    with user ids unique and that id not 0, the next request's current user
    is that user. *)
Theorem login_then_current_user
        (verify_password : string -> string -> bool)
        (session : dict string Z) (db : Session) (username password : string) :
  NoDup (map User.id (users db)) ->
  fst (login verify_password session db username password) = to_dashboard ->
  exists u,
    In u (users db)
    /\ User.username u = username
    /\ verify_password password (User.hashed_password u) = true
    /\ dict_get String.eqb
         (snd (login verify_password session db username password)) "user_id"
       = Some (User.id u)
    /\ (User.id u <> 0%Z ->
        get_current_user
          (snd (login verify_password session db username password)) db
        = Some u).
Proof.
  intros Hnd Hok.
  destruct (login_cases verify_password session db username password)
    as [(Hbad & _) | (_ & u & Hfind & Hpw & Hs)].
  - rewrite Hok in Hbad. discriminate.
  - exists u. apply find_some in Hfind. destruct Hfind as [Hin Hname].
    apply String.eqb_eq in Hname.
    assert (Hget : dict_get String.eqb
                     (snd (login verify_password session db username password))
                     "user_id" = Some (User.id u)).
    { rewrite Hs, (@dict_get_set _ _ String.eqb String.eqb_eq). reflexivity. }
    repeat split; try assumption.
    intro Hnz. apply get_current_user_complete; assumption.
Qed.

Lemma login_then_current_user_witness :
  let verify := fun password hashed => (password =? "password") in
  let r := login verify [("user_id", 1%Z)] Sample.db "client" "password" in
  NoDup (map User.id (users Sample.db))
  /\ fst r = to_dashboard
  /\ exists u, User.username u = "client"
               /\ (User.id u <> 0%Z -> get_current_user (snd r) Sample.db = Some u).
Proof.
  cbv zeta. split; [exact sample_user_ids_unique |]. split; [reflexivity |].
  destruct (login_then_current_user
              (fun password hashed => (password =? "password"))
              [("user_id", 1%Z)] Sample.db "client" "password"
              sample_user_ids_unique eq_refl)
    as (u & _ & Hname & _ & _ & Hcur).
  exists u. split; assumption.
Defined.

(** X4.  A login that fails, for an unknown name or a password that does
    not verify, answers with the login page and its error and leaves the
    session as it was: whoever was logged in before still is. *)
Theorem failed_login_keeps_session
        (verify_password : string -> string -> bool)
        (session : dict string Z) (db : Session) (username password : string) :
  (forall u, In u (users db) -> User.username u = username ->
             verify_password password (User.hashed_password u) = false) ->
  login verify_password session db username password
  = (invalid_credentials, session)
  /\ get_current_user
       (snd (login verify_password session db username password)) db
     = get_current_user session db.
Proof.
  intro Hbad.
  destruct (login_cases verify_password session db username password)
    as [(Hresp & Hs & _) | (_ & u & Hfind & Hpw & _)].
  - rewrite (surjective_pairing (login _ _ _ _ _)), Hresp, Hs. cbn [snd].
    split; reflexivity.
  - apply find_some in Hfind. destruct Hfind as [Hin Hname].
    apply String.eqb_eq in Hname. rewrite (Hbad u Hin Hname) in Hpw.
    discriminate.
Qed.

Lemma failed_login_keeps_session_witness :
  let verify := fun password hashed => (password =? "password") in
  login verify [("user_id", 2%Z)] Sample.db "admin" "letmein"
  = (invalid_credentials, [("user_id", 2%Z)])
  /\ get_current_user [("user_id", 2%Z)] Sample.db = Some Sample.freelancer.
Proof.
  cbv zeta. split; [| reflexivity].
  apply (failed_login_keeps_session
           (fun password hashed => (password =? "password"))
           [("user_id", 2%Z)] Sample.db "admin" "letmein").
  intros u _ _. reflexivity.
Defined.

(** X5.  After a logout the session names no user, whatever it held: the
    next request for any page is sent to the login page and shown nothing,
    and a posted time entry is answered 403 and not stored. *)
Theorem logout_ends_access
        (session : dict string Z) (db : Session) (today : date)
        (project_id : Z) (hours : Float) (date_string description : string) :
  let user := get_current_user (snd (logout session)) db in
  fst (logout session) = redirect unit "/login"
  /\ user = None
  /\ root user = redirect _ "/login"
  /\ dashboard db user today = redirect _ "/login"
  /\ projects_view db user = redirect _ "/login"
  /\ time_logs db user = redirect _ "/login"
  /\ invoices_view db user = redirect _ "/login"
  /\ reports db user = redirect _ "/login"
  /\ add_time_log db user project_id hours date_string description
     = (forbidden, db).
Proof. cbv zeta. repeat split. Qed.

(** * The projects and invoices pages *)

Lemma In_join_client (ps : list Project.t) (cs : list Client.t)
      (p : Project.t) (c : Client.t) :
  In (p, c) (join_client ps cs)
  <-> In p ps /\ In c cs /\ Project.client_id p = Some (Client.id c).
Proof.
  unfold join_client. rewrite in_flat_map. split.
  - intros (p' & Hp' & H). apply in_map_iff in H.
    destruct H as (c' & Heq & Hc'). inversion Heq; subst.
    apply filter_In in Hc'. destruct Hc' as [Hc' Hid].
    apply col_eq_Some in Hid. auto.
  - intros (Hp & Hc & Hid). exists p. split; [exact Hp |].
    apply in_map_iff. exists c. split; [reflexivity |].
    apply filter_In. split; [exact Hc |]. apply col_eq_Some, Hid.
Qed.

Lemma In_projects_list (db : Session) (user : User.t)
      (p : Project.t) (c : Client.t) :
  In (p, c) (projects_list db user)
  <-> In p (projects db) /\ In c (clients db)
      /\ Project.client_id p = Some (Client.id c)
      /\ visible user p = true.
Proof.
  unfold projects_list. rewrite In_client_filter, In_join_client.
  cbn [fst]. tauto.
Qed.

(** The project has a row in the clients table. *)
Definition has_client (db : Session) (p : Project.t) : bool :=
  existsb (fun c => col_eq (Project.client_id p) (Some (Client.id c)))
          (clients db).

Lemma client_at_most_one (cid : option Z) (cs : list Client.t) :
  NoDup (map Client.id cs) ->
  filter (fun c => col_eq cid (Some (Client.id c))) cs = []
  \/ exists c, filter (fun c => col_eq cid (Some (Client.id c))) cs = [c].
Proof.
  intro H. induction cs as [| c cs IH]; cbn [map filter] in *.
  - left. reflexivity.
  - inversion H as [| ? ? Hnotin Hnodup]; subst.
    destruct (col_eq cid (Some (Client.id c))) eqn:E.
    + right. exists c. f_equal. apply no_In_nil. intros c' Hc'.
      apply filter_In in Hc'. destruct Hc' as [Hc' Hid].
      apply col_eq_Some in E, Hid. apply Hnotin.
      assert (Heq : Client.id c = Client.id c') by congruence.
      rewrite Heq. apply in_map, Hc'.
    + apply IH, Hnodup.
Qed.

Lemma join_client_fst (g : Project.t -> bool)
      (ps : list Project.t) (cs : list Client.t) :
  NoDup (map Client.id cs) ->
  map fst (filter (fun r => g (fst r)) (join_client ps cs))
  = filter (fun p => existsb (fun c => col_eq (Project.client_id p)
                                              (Some (Client.id c))) cs
                     && g p) ps.
Proof.
  intro Hcs. unfold join_client.
  induction ps as [| p ps IH]; [reflexivity |].
  cbn [flat_map filter]. rewrite filter_app, map_app, IH.
  replace (existsb (fun c => col_eq (Project.client_id p) (Some (Client.id c))) cs)
    with (existsb (fun _ => true)
            (filter (fun c => col_eq (Project.client_id p) (Some (Client.id c)))
                    cs)).
  - destruct (client_at_most_one (Project.client_id p) cs Hcs) as [-> | [c ->]];
      cbn [map filter existsb fst orb andb].
    + reflexivity.
    + destruct (g p); reflexivity.
  - clear. induction cs as [| c cs IHc]; [reflexivity |].
    cbn [filter existsb].
    destruct (col_eq (Project.client_id p) (Some (Client.id c)));
      cbn [existsb orb]; [reflexivity | exact IHc].
Qed.

(** X6.  With client ids unique, the projects page lists, once each and in
    table order, the projects that have a row in the clients table and that
    the user may see, each with that client; a project whose client is
    missing is listed for nobody, the admin included. *)
Theorem projects_page_lists_visible_projects (db : Session) (user : User.t) :
  NoDup (map Client.id (clients db)) ->
  map fst (projects_list db user)
  = filter (fun p => has_client db p && visible user p) (projects db)
  /\ forall p c,
      In (p, c) (projects_list db user)
      <-> In p (projects db) /\ In c (clients db)
          /\ Project.client_id p = Some (Client.id c)
          /\ visible user p = true.
Proof.
  intro Hcs. split.
  - unfold projects_list. rewrite client_filter_visible.
    apply (join_client_fst (visible user) (projects db) (clients db) Hcs).
  - intros p c. apply In_projects_list.
Qed.

Lemma sample_client_ids_unique : NoDup (map Client.id (clients Sample.db)).
Proof. cbn. repeat constructor; cbn; intuition discriminate. Qed.

Lemma projects_page_lists_visible_projects_witness :
  NoDup (map Client.id (clients Sample.db))
  /\ map (fun r => Project.id (fst r)) (projects_list Sample.db Sample.client)
     = [1%Z; 4%Z]
  /\ map fst (projects_list Sample.db Sample.client)
     = filter (fun p => has_client Sample.db p && visible Sample.client p)
              (projects Sample.db).
Proof.
  split; [exact sample_client_ids_unique |]. split; [reflexivity |].
  exact (proj1 (projects_page_lists_visible_projects
                  Sample.db Sample.client sample_client_ids_unique)).
Defined.

(** X7.  A client-role user with no [client_id] is shown no project on the
    projects page, in any database: the guard keeps the projects whose
    [client_id] is NULL and the join with the clients keeps none of those. *)
Theorem projects_page_empty_for_unlinked_client (db : Session) (user : User.t) :
  User.role user = "client" ->
  User.client_id user = None ->
  projects_list db user = [].
Proof.
  intros Hrole Hnone. apply no_In_nil. intros [p c] Hin.
  apply In_projects_list in Hin. destruct Hin as (_ & _ & Hid & Hv).
  apply (visible_client_id user p Hrole) in Hv.
  rewrite Hnone in Hv. congruence.
Qed.

Lemma projects_page_empty_for_unlinked_client_witness :
  User.role Sample.unlinked = "client"
  /\ User.client_id Sample.unlinked = None
  /\ In Sample.orphan (projects Sample.db_orphan)
  /\ projects_list Sample.db_orphan Sample.unlinked = [].
Proof.
  split; [reflexivity |]. split; [reflexivity |].
  split; [cbn; tauto |].
  apply (projects_page_empty_for_unlinked_client
           Sample.db_orphan Sample.unlinked); reflexivity.
Defined.

Lemma In_invoices_list (db : Session) (user : User.t)
      (i : Invoice.t) (p : Project.t) :
  In (i, p) (invoices_list db user)
  <-> In i (invoices db) /\ In p (projects db)
      /\ references (Invoice.project_id i) p = true
      /\ visible user p = true.
Proof.
  unfold invoices_list. rewrite In_sort_desc. apply In_visible_join.
Qed.

(** X8.  For a client-role user linked to client [c], every project on the
    projects page is a project of [c], shown with the client row of id [c],
    and every invoice on the invoices page belongs to a project of [c]. *)
Theorem client_pages_own_records (db : Session) (user : User.t) (c : Z) :
  User.role user = "client" ->
  User.client_id user = Some c ->
  (forall p cl, In (p, cl) (projects_list db user) ->
                Project.client_id p = Some c /\ Client.id cl = c)
  /\ (forall i p, In (i, p) (invoices_list db user) ->
                  references (Invoice.project_id i) p = true
                  /\ Project.client_id p = Some c).
Proof.
  intros Hrole Hc. split.
  - intros p cl Hin. apply In_projects_list in Hin.
    destruct Hin as (_ & _ & Hid & Hv).
    apply (visible_client_id user p Hrole) in Hv. rewrite Hc in Hv.
    split; [exact Hv | congruence].
  - intros i p Hin. apply In_invoices_list in Hin.
    destruct Hin as (_ & _ & Href & Hv).
    apply (visible_client_id user p Hrole) in Hv. rewrite Hc in Hv. auto.
Qed.

Lemma client_pages_own_records_witness :
  User.role Sample.client = "client"
  /\ User.client_id Sample.client = Some 1%Z
  /\ map (fun r => Invoice.id (fst r)) (invoices_list Sample.db Sample.client)
     = [2%Z; 4%Z]
  /\ forall i p, In (i, p) (invoices_list Sample.db Sample.client) ->
                 references (Invoice.project_id i) p = true
                 /\ Project.client_id p = Some 1%Z.
Proof.
  split; [reflexivity |]. split; [reflexivity |]. split; [reflexivity |].
  exact (proj2 (client_pages_own_records Sample.db Sample.client 1
                  eq_refl eq_refl)).
Defined.

(** * Listings by date *)







Section ByDateDesc.
Variables (A : Type) (date_of : A -> date).


End ByDateDesc.



(** * Totals across the views *)




Section DictOfSums.
Variables (K : Type) (eqb : K -> K -> bool).
Hypothesis eqb_eq : forall a b, eqb a b = true <-> a = b.

Lemma dict_get_default_set_any (d : dict K Float) (k k' : K) (v : Float) :
  dict_get_default eqb (dict_set eqb d k v) k' (Q2Qc 0)
  = if eqb k k' then v else dict_get_default eqb d k' (Q2Qc 0).
Proof.
  unfold dict_get_default. rewrite (@dict_get_set _ _ eqb eqb_eq).
  destruct (eqb k k'); reflexivity.
Qed.

(** [d[k] = d.get(k, 0) + x], the step of every grouping loop. *)
Definition dict_add (d : dict K Float) (k : K) (x : Float) : dict K Float :=
  dict_set eqb d k (dict_get_default eqb d k (Q2Qc 0) + x)%Qc.

Lemma dict_add_get (d : dict K Float) (k k' : K) (x : Float) :
  dict_get_default eqb (dict_add d k x) k' (Q2Qc 0)
  = (dict_get_default eqb d k' (Q2Qc 0) + if eqb k k' then x else Q2Qc 0)%Qc.
Proof.
  unfold dict_add. rewrite dict_get_default_set_any.
  destruct (eqb k k') eqn:E.
  - apply eqb_eq in E. subst k'. reflexivity.
  - ring.
Qed.

End DictOfSums.





Lemma join_project_fst_ext (A : Type) (fk : A -> option Z)
      (F : A * Project.t -> bool) (g : Project.t -> bool) (h : A -> bool)
      (rows : list A) (ps : list Project.t) :
  NoDup (map Project.id ps) ->
  (forall r, F r = g (snd r) && h (fst r)) ->
  map fst (filter F (join_project fk rows ps))
  = filter (fun x => existsb (fun p => references (fk x) p && g p) ps && h x)
           rows.
Proof.
  intros Hps HF.
  rewrite (filter_ext F (fun r => g (snd r) && h (fst r)) HF).
  apply join_project_fst, Hps.
Qed.


Lemma sample_project_ids_unique : NoDup (map Project.id (projects Sample.db)).
Proof. cbn. repeat constructor; cbn; intuition discriminate. Qed.









(** * The other figures of the dashboard *)

(** An invoice the user may see: it references a project in the user's
    scope. *)
Definition invoice_visible (db : Session) (user : User.t) (i : Invoice.t) : bool :=
  existsb (fun p => references (Invoice.project_id i) p && visible user p)
          (projects db).

Lemma scoped_invoices (db : Session) (user : User.t) (h : Invoice.t -> bool) :
  NoDup (map Project.id (projects db)) ->
  map fst
      (client_filter snd user
         (filter (fun r => h (fst r))
                 (join_project Invoice.project_id (invoices db) (projects db))))
  = filter (fun i => invoice_visible db user i && h i) (invoices db).
Proof.
  intro Hps. rewrite client_filter_visible, filter_filter_andb.
  apply (join_project_fst_ext _ Invoice.project_id _ (visible user) h _ _ Hps).
  intro r. apply andb_comm.
Qed.

(** X15.  With project ids unique, the dashboard counts the active projects
    the user may see, counts the invoices in draft or sent that reference a
    project the user may see, and sums the amounts of the paid invoices that
    do; an invoice that references no project is in neither figure. *)
Theorem dashboard_figures (db : Session) (user : User.t) (today : date) :
  NoDup (map Project.id (projects db)) ->
  let d := dashboard_context db user today in
  active_projects d
  = List.length (filter (fun p => (Project.status p =? "active")
                                  && visible user p) (projects db))
  /\ pending_invoices d
     = List.length
         (filter (fun i => invoice_visible db user i
                           && role_in (Invoice.status i) ["draft"; "sent"])
                 (invoices db))
  /\ total_earned d
     = py_sum (map Invoice.amount
                   (filter (fun i => invoice_visible db user i
                                     && (Invoice.status i =? "paid"))
                           (invoices db))).
Proof.
  intros Hps d. subst d. unfold dashboard_context.
  cbn [active_projects pending_invoices total_earned]. split; [| split].
  - unfold active_projects_query.
    rewrite client_filter_visible, filter_filter_andb. reflexivity.
  - rewrite <- (scoped_invoices db user
                  (fun i => role_in (Invoice.status i) ["draft"; "sent"]) Hps).
    rewrite length_map. reflexivity.
  - rewrite <- (scoped_invoices db user
                  (fun i => Invoice.status i =? "paid") Hps).
    rewrite map_map. reflexivity.
Qed.

Lemma dashboard_figures_witness :
  NoDup (map Project.id (projects Sample.db))
  /\ pending_invoices (dashboard_context Sample.db Sample.client Sample.today)
     = 1%nat
  /\ pending_invoices (dashboard_context Sample.db Sample.client Sample.today)
     = List.length
         (filter (fun i => invoice_visible Sample.db Sample.client i
                           && role_in (Invoice.status i) ["draft"; "sent"])
                 (invoices Sample.db)).
Proof.
  split; [exact sample_project_ids_unique |]. split; [reflexivity |].
  exact (proj1 (proj2 (dashboard_figures Sample.db Sample.client Sample.today
                         sample_project_ids_unique))).
Defined.

(** * Roles *)

(** X16.  Only the exact role [client] narrows what a user sees: for every
    other role string, a misspelt or unknown one included, the dashboard
    counts all active projects whoever owns them, and the time log, the
    invoices page and the projects page list the rows of every client. *)
Theorem other_roles_see_everything (db : Session) (user : User.t) (today : date) :
  User.role user <> "client" ->
  (forall p, visible user p = true)
  /\ active_projects (dashboard_context db user today)
     = List.length (filter (fun p => Project.status p =? "active") (projects db))
  /\ (forall t p, In (t, p) (entries (time_logs_context db user))
                  <-> In t (time_entries db) /\ In p (projects db)
                      /\ references (TimeEntry.project_id t) p = true)
  /\ (forall i p, In (i, p) (invoices_list db user)
                  <-> In i (invoices db) /\ In p (projects db)
                      /\ references (Invoice.project_id i) p = true)
  /\ projects_list db user = join_client (projects db) (clients db).
Proof.
  intro Hrole. apply String.eqb_neq in Hrole.
  assert (Hv : forall p, visible user p = true).
  { intro p. unfold visible. rewrite Hrole. reflexivity. }
  split; [exact Hv |]. split; [| split; [| split]].
  - unfold dashboard_context, active_projects_query, client_filter.
    cbn [active_projects]. rewrite Hrole. reflexivity.
  - intros t p. unfold time_logs_context. cbn [entries].
    rewrite In_time_logs_query, Hv. tauto.
  - intros i p. rewrite In_invoices_list, Hv. tauto.
  - unfold projects_list, client_filter. rewrite Hrole. reflexivity.
Qed.

Lemma other_roles_see_everything_witness :
  let manager := User.mk 9 "pat" "$2b$" "Client" (Some 1%Z) in
  User.role manager <> "client"
  /\ active_projects (dashboard_context Sample.db manager Sample.today) = 3%nat.
Proof.
  cbv zeta. split; [discriminate |].
  destruct (other_roles_see_everything
              Sample.db (User.mk 9 "pat" "$2b$" "Client" (Some 1%Z)) Sample.today)
    as (_ & H & _); [discriminate |].
  rewrite H. reflexivity.
Defined.



(** * The ranking, in any database *)

Lemma In_dict_set (K V : Type) (eqb : K -> K -> bool)
      (eqb_eq : forall a b, eqb a b = true <-> a = b)
      (d : dict K V) (k k' : K) (v v' : V) :
  In (k, v) (dict_set eqb d k' v') -> (k = k' /\ v = v') \/ In (k, v) d.
Proof.
  induction d as [| [k0 v0] d IH]; cbn [dict_set In].
  - intros [H | []]. inversion H. auto.
  - destruct (eqb k0 k') eqn:E; cbn [In].
    + apply eqb_eq in E. subst k0.
      intros [H | H]; [| auto]. inversion H; subst. auto.
    + intros [H | H]; [auto |]. apply IH in H. tauto.
Qed.

(** What the loop over the clients keeps true of [top_clients]. *)
Definition ranking_entry (db : Session) (kv : string * Float) : Prop :=
  (Q2Qc 0 < snd kv)%Qc
  /\ exists c, In c (clients db) /\ Client.name c = fst kv
               /\ paid_total db c = snd kv.

Lemma fold_add_client_entries (db : Session) (cs : list Client.t)
      (top : dict string Float) :
  incl cs (clients db) ->
  NoDup (dict_keys top) /\ Forall (ranking_entry db) top ->
  NoDup (dict_keys (fold_left (add_client db) cs top))
  /\ Forall (ranking_entry db) (fold_left (add_client db) cs top).
Proof.
  revert top. induction cs as [| c cs IH]; intros top Hcs [Hnd Hall];
    cbn [fold_left].
  - auto.
  - apply IH.
    + intros x Hx. apply Hcs. right. exact Hx.
    + unfold add_client.
      destruct (Qcltb (Q2Qc 0) (paid_total db c)) eqn:Hpos; [| auto].
      split.
      * apply (@NoDup_dict_keys_set _ _ String.eqb String.eqb_eq), Hnd.
      * rewrite Forall_forall in *. intros [k v] Hkv.
        apply (In_dict_set _ _ String.eqb String.eqb_eq) in Hkv.
        destruct Hkv as [[-> ->] | Hkv]; [| auto].
        split; [apply Qcltb_lt, Hpos |].
        exists c. repeat split. apply Hcs. left. reflexivity.
Qed.

(** X18.  In any database and for any user, the ranking names no client
    twice, and every row of it is the name of a client of the database with
    that client's sum of paid invoices, a sum above zero. *)
Theorem top_clients_entries (db : Session) (user : User.t) :
  let ranking := top_clients (reports_context db user) in
  NoDup (map fst ranking)
  /\ forall name total,
      In (name, total) ranking ->
      (Q2Qc 0 < total)%Qc
      /\ exists c, In c (clients db) /\ Client.name c = name
                   /\ paid_total db c = total.
Proof.
  cbv zeta. unfold reports_context. cbn [top_clients].
  unfold sorted_reverse, dict_items.
  assert (H : NoDup (dict_keys (top_clients_dict db user))
              /\ Forall (ranking_entry db) (top_clients_dict db user)).
  { unfold top_clients_dict.
    destruct (role_in (User.role user) ["admin"; "freelancer"]).
    - apply fold_add_client_entries; [apply incl_refl |].
      split; constructor.
    - split; constructor. }
  destruct H as [Hnd Hall]. split.
  - eapply Permutation_NoDup; [| exact Hnd].
    apply Permutation_map, sort_desc_perm.
  - intros name total Hin. apply In_sort_desc in Hin.
    rewrite Forall_forall in Hall. exact (Hall _ Hin).
Qed.

(** * Nothing in scope *)

Section NothingVisible.
Variables (db : Session) (user : User.t).
Hypothesis nothing_visible :
  forall p, In p (projects db) -> visible user p = false.

Lemma client_filter_nothing (A : Type) (project_of : A -> Project.t)
      (q : list A) :
  (forall r, In r q -> In (project_of r) (projects db)) ->
  client_filter project_of user q = [].
Proof.
  intro Hq. apply no_In_nil. intros r Hr.
  apply In_client_filter in Hr. destruct Hr as [Hr Hv].
  rewrite (nothing_visible _ (Hq r Hr)) in Hv. discriminate.
Qed.

Lemma joined_project_in_db (A : Type) (fk : A -> option Z) (rows : list A)
      (r : A * Project.t) :
  In r (join_project fk rows (projects db)) -> In (snd r) (projects db).
Proof.
  destruct r as [x p]. intro H. apply In_join_project in H. cbn [snd]. tauto.
Qed.

Lemma nothing_visible_queries :
  active_projects_query db user = []
  /\ dashboard_time_query db user = []
  /\ pending_inv_query db user = []
  /\ paid_inv_query db user = []
  /\ time_logs_query db user = []
  /\ invoices_list db user = []
  /\ projects_list db user = [].
Proof.
  assert (Ht : client_filter snd user
                 (join_project TimeEntry.project_id (time_entries db)
                               (projects db)) = []).
  { apply client_filter_nothing. intros r. apply joined_project_in_db. }
  assert (Hi : forall h,
             client_filter snd user
               (filter h (join_project Invoice.project_id (invoices db)
                                       (projects db))) = []).
  { intro h. apply client_filter_nothing. intros r Hr.
    apply filter_In in Hr. destruct Hr as [Hr _].
    revert Hr. apply joined_project_in_db. }
  repeat split.
  - apply client_filter_nothing. intros p Hp. apply filter_In in Hp. tauto.
  - exact Ht.
  - apply Hi.
  - apply Hi.
  - unfold time_logs_query, order_by_date_desc. rewrite Ht. reflexivity.
  - unfold invoices_list.
    rewrite (client_filter_nothing _ snd); [reflexivity |].
    intros r. apply joined_project_in_db.
  - apply client_filter_nothing. intros [p c] Hr.
    apply In_join_client in Hr. cbn [fst]. tauto.
Qed.
End NothingVisible.

(** X19.  A user who may see none of the projects, a client without
    projects or any user of a database without projects, gets a dashboard of
    zeros and empty listings and charts on every page; nothing fails. *)
Theorem nothing_visible_nothing_shown
        (db : Session) (user : User.t) (today : date) :
  (forall p, In p (projects db) -> visible user p = false) ->
  let d := dashboard_context db user today in
  let t := time_logs_context db user in
  let r := reports_context db user in
  (active_projects d = 0%nat /\ total_hours d = Q2Qc 0
   /\ pending_invoices d = 0%nat /\ total_earned d = Q2Qc 0)
  /\ (entries t = [] /\ project_totals t = [])
  /\ (hours_data r = [] /\ monthly_data r = [])
  /\ invoices_list db user = []
  /\ projects_list db user = [].
Proof.
  intro Hnone.
  destruct (nothing_visible_queries db user Hnone)
    as (Ha & Ht & Hp & Hd & Hl & Hi & Hj).
  cbv zeta. unfold dashboard_context, time_logs_context, reports_context.
  cbn [active_projects total_hours pending_invoices total_earned
       entries project_totals hours_data monthly_data].
  unfold month_hours.
  change (reports_time_query db user) with (dashboard_time_query db user).
  change (inv_query db user) with (paid_inv_query db user).
  rewrite Ha, Ht, Hp, Hd, Hl, Hi, Hj.
  repeat split. apply round1_zero.
Qed.

Lemma nothing_visible_nothing_shown_witness :
  let newcomer := User.mk 9 "newcomer" "$2b$" "client" (Some 7%Z) in
  (forall p, In p (projects Sample.db) -> visible newcomer p = false)
  /\ active_projects (dashboard_context Sample.db newcomer Sample.today) = 0%nat
  /\ invoices_list Sample.db newcomer = [].
Proof.
  cbv zeta.
  assert (H : forall p, In p (projects Sample.db) ->
                        visible (User.mk 9 "newcomer" "$2b$" "client" (Some 7%Z)) p
                        = false).
  { intros p Hp. cbn in Hp.
    repeat (destruct Hp as [<- | Hp]; [reflexivity |]). destruct Hp. }
  split; [exact H |].
  destruct (nothing_visible_nothing_shown
              Sample.db (User.mk 9 "newcomer" "$2b$" "client" (Some 7%Z))
              Sample.today H) as ((Ha & _) & _ & _ & Hi & _).
  split; assumption.
Defined.

(** * Earnings by month *)

Lemma digit_char_inj (a b : Z) :
  digit_char a = digit_char b -> (a mod 10 = b mod 10)%Z.
Proof.
  unfold digit_char. intro H.
  apply (f_equal N_of_ascii) in H.
  pose proof (Z.mod_pos_bound a 10 eq_refl) as Ha.
  pose proof (Z.mod_pos_bound b 10 eq_refl) as Hb.
  rewrite !N_ascii_embedding in H by lia.
  apply Z2N.inj in H; lia.
Qed.

(** A month key names one month of one year, for years of four digits. *)
Lemma strftime_Ym_inj (d1 d2 : date) :
  (0 <= year d1 <= 9999)%Z -> (0 <= year d2 <= 9999)%Z ->
  (0 <= month d1 <= 99)%Z -> (0 <= month d2 <= 99)%Z ->
  strftime_Ym d1 = strftime_Ym d2 ->
  year d1 = year d2 /\ month d1 = month d2.
Proof.
  intros Hy1 Hy2 Hm1 Hm2 H. unfold strftime_Ym in H.
  apply (f_equal list_ascii_of_string) in H.
  rewrite !list_ascii_of_string_of_list_ascii in H.
  inversion H as [[E1 E2 E3 E4 E5 E6]]. clear H.
  apply digit_char_inj in E1, E2, E3, E4, E5, E6.
  split.
  - clear E5 E6 Hm1 Hm2. Z.to_euclidean_division_equations. lia.
  - clear E1 E2 E3 E4 Hy1 Hy2. Z.to_euclidean_division_equations. lia.
Qed.

(** [d'] is in the month of [d]. *)
Definition same_month (d d' : date) : bool :=
  ((year d' =? year d) && (month d' =? month d))%Z.

(** The dates whose month key is written with four digits and two. *)
Definition four_digit_year (d : date) : Prop :=
  (1000 <= year d <= 9999 /\ 1 <= month d <= 12)%Z.

Lemma month_key_same_month (d d' : date) :
  four_digit_year d -> four_digit_year d' ->
  (strftime_Ym d' =? strftime_Ym d) = same_month d d'.
Proof.
  intros [Hy Hm] [Hy' Hm']. unfold same_month.
  destruct (String.eqb_spec (strftime_Ym d') (strftime_Ym d)) as [E | E].
  - assert (E' : year d' = year d /\ month d' = month d)
      by (apply strftime_Ym_inj; [lia | lia | lia | lia | exact E]).
    destruct E' as [-> ->]. rewrite !Z.eqb_refl. reflexivity.
  - destruct (Z.eqb_spec (year d') (year d)) as [Ey |]; [| reflexivity].
    destruct (Z.eqb_spec (month d') (month d)) as [Em |]; [| reflexivity].
    exfalso. apply E. unfold strftime_Ym. rewrite Ey, Em. reflexivity.
Qed.

Lemma fold_add_earnings_get (l : list (Invoice.t * Project.t))
      (d : dict string Float) (key : string) :
  dict_get_default String.eqb (fold_left add_earnings l d) key (Q2Qc 0)
  = (dict_get_default String.eqb d key (Q2Qc 0)
     + py_sum (map (fun r => Invoice.amount (fst r))
                   (filter (fun r => strftime_Ym (Invoice.issued_date (fst r))
                                     =? key) l)))%Qc.
Proof.
  revert d. induction l as [| e l IH]; intro d; cbn [fold_left filter].
  - cbn [map]. rewrite py_sum_nil. ring.
  - rewrite IH.
    change (add_earnings d e)
      with (dict_add _ String.eqb d (strftime_Ym (Invoice.issued_date (fst e)))
                     (Invoice.amount (fst e))).
    rewrite (dict_add_get _ String.eqb String.eqb_eq).
    destruct (strftime_Ym (Invoice.issued_date (fst e)) =? key); cbn [map].
    + rewrite py_sum_cons. ring.
    + ring.
Qed.

(** X20.  With project ids unique and invoice dates in years of four
    digits, the monthly earnings hold, under the key of a month, the sum of
    the amounts of the paid invoices issued in that month of that year that
    reference a project the user may see. *)
Theorem earnings_by_month (db : Session) (user : User.t) (d : date) :
  NoDup (map Project.id (projects db)) ->
  (forall i, In i (invoices db) -> four_digit_year (Invoice.issued_date i)) ->
  four_digit_year d ->
  dict_get_default String.eqb (monthly_data (reports_context db user))
                   (strftime_Ym d) (Q2Qc 0)
  = py_sum (map Invoice.amount
                (filter (fun i => invoice_visible db user i
                                  && (Invoice.status i =? "paid")
                                  && same_month d (Invoice.issued_date i))
                        (invoices db))).
Proof.
  intros Hps Hdates Hd. unfold reports_context. cbn [monthly_data].
  rewrite fold_add_earnings_get.
  replace (dict_get_default String.eqb [] (strftime_Ym d) (Q2Qc 0))
    with (Q2Qc 0) by reflexivity.
  rewrite Qcplus_0_l. f_equal.
  rewrite (filter_ext_in
             (fun r : Invoice.t * Project.t =>
                strftime_Ym (Invoice.issued_date (fst r)) =? strftime_Ym d)
             (fun r => same_month d (Invoice.issued_date (fst r)))).
  - rewrite <- (map_map fst Invoice.amount).
    rewrite <- (filter_map_comm _ _ fst
                  (fun i => same_month d (Invoice.issued_date i))).
    unfold inv_query.
    rewrite (scoped_invoices db user (fun i => Invoice.status i =? "paid") Hps).
    rewrite filter_filter_andb. reflexivity.
  - intros [i p] Hr. cbn [fst]. apply month_key_same_month; [exact Hd |].
    apply Hdates. unfold inv_query in Hr.
    apply In_client_filter in Hr. destruct Hr as [Hr _].
    apply filter_In in Hr. destruct Hr as [Hr _].
    apply In_join_project in Hr. tauto.
Qed.

Lemma earnings_by_month_witness :
  NoDup (map Project.id (projects Sample.db))
  /\ strftime_Ym (mkdate 2024 5 1) = "2024-05"
  /\ this (dict_get_default String.eqb
             (monthly_data (reports_context Sample.db Sample.admin))
             "2024-05" (Q2Qc 0)) = 1500%Q
  /\ dict_get_default String.eqb
       (monthly_data (reports_context Sample.db Sample.admin))
       (strftime_Ym (mkdate 2024 5 1)) (Q2Qc 0)
     = py_sum (map Invoice.amount
                   (filter (fun i => invoice_visible Sample.db Sample.admin i
                                     && (Invoice.status i =? "paid")
                                     && same_month (mkdate 2024 5 1)
                                                   (Invoice.issued_date i))
                           (invoices Sample.db))).
Proof.
  split; [exact sample_project_ids_unique |].
  split; [reflexivity |]. split; [reflexivity |].
  apply (earnings_by_month Sample.db Sample.admin (mkdate 2024 5 1)
           sample_project_ids_unique).
  - intros i Hi. cbn in Hi.
    repeat (destruct Hi as [<- | Hi]; [unfold four_digit_year; cbn; lia |]).
    destruct Hi.
  - unfold four_digit_year. cbn. lia.
Defined.

(** * Rounding of the hours *)





(** * What posting a time entry may do *)


(** X23.  The form offers the active projects only, but the handler of the
    post does not look at the project: a writer's entry for a project that
    is on hold or completed, which the form does not offer, is stored like
    any other. *)
Theorem inactive_project_accepts_time
        (db : Session) (user : User.t) (p : Project.t)
        (hours : Float) (date_string description : string) (d : date) :
  role_in (User.role user) ["admin"; "freelancer"] = true ->
  In p (projects db) ->
  Project.status p <> "active" ->
  strptime date_string = Some d ->
  ~ In p (projects_for_form (time_logs_context db user))
  /\ (forall q, In q (projects_for_form (time_logs_context db user)) ->
                Project.status q = "active")
  /\ exists e,
      add_time_log db (Some user) (Project.id p) hours date_string description
      = (see_other, add_time_entry db e)
      /\ references (TimeEntry.project_id e) p = true
      /\ TimeEntry.hours e = hours.
Proof.
  intros Hrole Hin Hstatus Hd.
  unfold time_logs_context. cbn [projects_for_form]. rewrite Hrole.
  split; [| split].
  - intro H. apply filter_In in H. destruct H as [_ H].
    apply String.eqb_eq in H. contradiction.
  - intros q H. apply filter_In in H. destruct H as [_ H].
    apply String.eqb_eq, H.
  - rewrite (add_time_log_good_date db user (Project.id p) hours date_string
               description d (role_in_not_client user Hrole) Hd).
    eexists. split; [reflexivity |]. cbn. rewrite Z.eqb_refl. auto.
Qed.

Lemma inactive_project_accepts_time_witness :
  Project.status Sample.logo = "completed"
  /\ ~ In Sample.logo (projects_for_form (time_logs_context Sample.db Sample.admin))
  /\ fst (add_time_log Sample.db (Some Sample.admin) 3 (Q2Qc 2)
                       "2024-06-14" "Touch-up") = see_other.
Proof.
  destruct (inactive_project_accepts_time
              Sample.db Sample.admin Sample.logo (Q2Qc 2)
              "2024-06-14" "Touch-up" (mkdate 2024 6 14))
    as (H1 & _ & H3); try reflexivity.
  - right. right. left. reflexivity.
  - discriminate.
  - split; [reflexivity |]. split; [exact H1 |].
    destruct H3 as (e & H3 & _).
    change (Project.id Sample.logo) with 3%Z in H3. rewrite H3. reflexivity.
Defined.
